(** * Feed synchronisation and optimistic feedback of the mobile client

    A shallow embedding of [frontend-app/screens/CompleteFeedScreen.js]
    (the feed screen: [loadPosts], [handleLike], [handleDislike],
    [handleRefresh], [handleLoadMore], [renderFooter] and what the
    component returns), of [ApiService] ([makeRequest] and the three
    calls built on it), of [SecureStorage] and of the endpoints of
    [constants/config.js].

    The JavaScript handlers are [async] functions: they change the
    component's hooks, suspend on [await fetch(...)] and resume when the
    promise settles.  They are embedded as finite resumption trees
    ([Async]); [run] plays a tree against the replies of the network. *)

From Stdlib Require Import List String Ascii ZArith Bool Arith Lia.
From Stdlib Require Import DecimalString DecimalZ FinFun.
Import ListNotations.

Local Open Scope string_scope.
Local Open Scope nat_scope.
Local Open Scope list_scope.

(** ** Data: posts as the feed endpoint returns them *)

Record Topic : Type := mkTopic {
  id : Z;
  topic_name : string
}.

Record Post : Type := mkPost {
  post_id : Z;
  post_content : string;
  timestamp : string;
  like_status : bool;
  dislike_status : bool;
  topic : Topic
}.

(** [{ ...post, like_status: l, dislike_status: d }] *)
Definition withFlags (post : Post) (l d : bool) : Post :=
  mkPost (post_id post) (post_content post) (timestamp post) l d (topic post).

(** ** HTTP: requests sent and replies received *)

Inductive Method : Type := GET | PUT.

(** The JSON object handed to [JSON.stringify], fields in source order. *)
Definition JsonBody : Type := list (string * bool).

Record Request : Type := mkRequest {
  url : string;
  method : Method;
  headers : list (string * string);
  body : option JsonBody
}.

(** What [response.json()] finds in the body of a feed response.  A body
    that is an object is kept by the two fields the screen reads, typed
    as the endpoint declares them ([posts: Post[]], [has_more?: bool]);
    a missing (or falsy) [posts] and a missing [has_more] are [None].
    A number, string or array has neither field. *)
Inductive Payload : Type :=
| NotJson
| JsonNull
| JsonObject (posts : option (list Post)) (has_more : option bool).

Record Response : Type := mkResponse {
  status : nat;
  payload : Payload
}.

(** [response.ok]: the status is in the range 200-299. *)
Definition ok (response : Response) : bool :=
  (200 <=? status response) && (status response <=? 299).

Inductive JsError : Type :=
| Error (message : string)
| TypeError
| SyntaxError.

(** How the promise of one [fetch] settles. *)
Inductive FetchReply : Type :=
| Rejects (cause : JsError)
| Responds (response : Response).

(** Template-literal interpolation of a number. *)
Definition showNat (n : nat) : string := NilEmpty.string_of_uint (Nat.to_uint n).

Definition showZ (z : Z) : string := NilEmpty.string_of_int (Z.to_int z).

(** ** constants/config.js *)

Module API_CONFIG.
Definition BASE_URL : string := "http://localhost:8000".
Definition API_KEY : string := "your_secure_api_key_here".

Module ENDPOINTS.
Definition POSTS : string := "/api/v1/posts".
Definition MOBILE_FEED : string := "/api/v1/mobile/feed".
Definition POST_FEEDBACK (postId : Z) : string :=
  ("/api/v1/posts/" ++ showZ postId ++ "/feedback")%string.
Definition MOBILE_POST_FEEDBACK (postId : Z) : string :=
  ("/api/v1/mobile/posts/" ++ showZ postId ++ "/feedback")%string.
Definition MOBILE_STATS : string := "/api/v1/mobile/stats".
End ENDPOINTS.

Module PAGINATION.
Definition LIMIT : nat := 20.
Definition INITIAL_OFFSET : nat := 0.
End PAGINATION.
End API_CONFIG.

(** ** The hooks of [CompleteFeedScreen] *)

Record FeedState : Type := mkFeed {
  posts : list Post;
  loading : bool;
  refreshing : bool;
  loadingMore : bool;
  hasMore : bool;
  error : option string;
  offset : nat
}.

(** The [useState] initial values: the first render. *)
Definition firstRender : FeedState :=
  mkFeed [] true false false true None 0.

Definition LIMIT : nat := 20.

Definition updPosts (f : list Post -> list Post) (s : FeedState) : FeedState :=
  mkFeed (f (posts s)) (loading s) (refreshing s) (loadingMore s) (hasMore s)
         (error s) (offset s).
Definition setPosts (v : list Post) : FeedState -> FeedState := updPosts (fun _ => v).
Definition setLoading (v : bool) (s : FeedState) : FeedState :=
  mkFeed (posts s) v (refreshing s) (loadingMore s) (hasMore s) (error s) (offset s).
Definition setRefreshing (v : bool) (s : FeedState) : FeedState :=
  mkFeed (posts s) (loading s) v (loadingMore s) (hasMore s) (error s) (offset s).
Definition setLoadingMore (v : bool) (s : FeedState) : FeedState :=
  mkFeed (posts s) (loading s) (refreshing s) v (hasMore s) (error s) (offset s).
Definition setHasMore (v : bool) (s : FeedState) : FeedState :=
  mkFeed (posts s) (loading s) (refreshing s) (loadingMore s) v (error s) (offset s).
Definition setError (v : option string) (s : FeedState) : FeedState :=
  mkFeed (posts s) (loading s) (refreshing s) (loadingMore s) (hasMore s) v (offset s).
Definition updOffset (f : nat -> nat) (s : FeedState) : FeedState :=
  mkFeed (posts s) (loading s) (refreshing s) (loadingMore s) (hasMore s) (error s)
         (f (offset s)).
Definition setOffset (v : nat) : FeedState -> FeedState := updOffset (fun _ => v).

(** ** Async functions as resumption trees *)

Inductive Async (A : Type) : Type :=
| Return (a : A)
| Throw (e : JsError)
| SetState (upd : FeedState -> FeedState) (k : Async A)
| NewDate (k : string -> Async A)
| Await (req : Request) (k : FetchReply -> Async A).

Arguments Return {A} a.
Arguments Throw {A} e.
Arguments SetState {A} upd k.
Arguments NewDate {A} k.
Arguments Await {A} req k.

Fixpoint bind {A B : Type} (m : Async A) (f : A -> Async B) : Async B :=
  match m with
  | Return a => f a
  | Throw e => Throw e
  | SetState upd k => SetState upd (bind k f)
  | NewDate k => NewDate (fun d => bind (k d) f)
  | Await req k => Await req (fun r => bind (k r) f)
  end.

(** [try { m } catch (err) { handler err }] *)
Fixpoint tryCatch {A : Type} (m : Async A) (handler : JsError -> Async A) : Async A :=
  match m with
  | Return a => Return a
  | Throw e => handler e
  | SetState upd k => SetState upd (tryCatch k handler)
  | NewDate k => NewDate (fun d => tryCatch (k d) handler)
  | Await req k => Await req (fun r => tryCatch (k r) handler)
  end.

(** [try { m } finally { fin }] *)
Fixpoint tryFinally {A : Type} (m : Async A) (fin : Async unit) : Async A :=
  match m with
  | Return a => bind fin (fun _ => Return a)
  | Throw e => bind fin (fun _ => Throw e)
  | SetState upd k => SetState upd (tryFinally k fin)
  | NewDate k => NewDate (fun d => tryFinally (k d) fin)
  | Await req k => Await req (fun r => tryFinally (k r) fin)
  end.

Declare Scope async_scope.
Delimit Scope async_scope with async.
Notation "x <- m ;; k" := (bind m (fun x => k))
  (at level 100, m at next level, right associativity) : async_scope.
Notation "m ;; k" := (bind m (fun _ => k))
  (at level 100, right associativity) : async_scope.
Notation "'try' m 'catch' h 'finally' f" := (tryFinally (tryCatch m h) f)
  (at level 100, m at level 100, h at level 100) : async_scope.

Definition set (upd : FeedState -> FeedState) : Async unit := SetState upd (Return tt).
Definition skip : Async unit := Return tt.

(** [await fetch(url, options)]: the call goes out, the promise settles. *)
Definition fetch (req : Request) : Async Response :=
  Await req (fun reply =>
    match reply with
    | Rejects cause => Throw cause
    | Responds response => Return response
    end).

(** [await response.json()], read at the two fields the screen uses;
    reading a field of [null] is a TypeError. *)
Definition json (response : Response) : Async (option (list Post) * option bool) :=
  match payload response with
  | NotJson => Throw SyntaxError
  | JsonNull => Throw TypeError
  | JsonObject ps hm => Return (ps, hm)
  end.

(** [await response.json()] on its own: the parsed value, [null]
    included; a body that is not JSON is a SyntaxError. *)
Definition parseJson (response : Response) : Async Payload :=
  match payload response with
  | NotJson => Throw SyntaxError
  | parsed => Return parsed
  end.

(** How far an async call got against the replies it was given. *)
Inductive Settlement (A : Type) : Type :=
| Fulfilled (a : A)
| Rejected (e : JsError)
| Pending.

Arguments Fulfilled {A} a.
Arguments Rejected {A} e.
Arguments Pending {A}.

Record Run (A : Type) : Type := mkRun {
  settled : Settlement A;
  hooks : FeedState;
  sent : list Request
}.

Arguments mkRun {A} settled hooks sent.
Arguments settled {A} r.
Arguments hooks {A} r.
Arguments sent {A} r.

(** [run clock m s inbox tick]: play [m] from hooks [s]; the i-th awaited
    call settles with the i-th reply of [inbox] and stays pending when
    there is none; the n-th [new Date().toISOString()] reads [clock n]. *)
Fixpoint run {A : Type} (clock : nat -> string) (m : Async A) (s : FeedState)
         (inbox : list FetchReply) (tick : nat) : Run A :=
  match m with
  | Return a => mkRun (Fulfilled a) s []
  | Throw e => mkRun (Rejected e) s []
  | SetState upd k => run clock k (upd s) inbox tick
  | NewDate k => run clock (k (clock tick)) s inbox (S tick)
  | Await req k =>
      match inbox with
      | [] => mkRun Pending s [req]
      | reply :: inbox' =>
          let r := run clock (k reply) s inbox' tick in
          mkRun (settled r) (hooks r) (req :: sent r)
      end
  end.

(** ** loadPosts *)

Definition feedRequest (limit currentOffset : nat) : Request :=
  mkRequest
    (API_CONFIG.BASE_URL ++ "/api/v1/mobile/feed?limit=" ++ showNat limit
       ++ "&offset=" ++ showNat currentOffset)%string
    GET
    [("Content-Type", "application/json"); ("X-API-Key", API_CONFIG.API_KEY)]
    None.

(** The hardcoded fallback posts of the [catch] block, by the five
    timestamps they carry. *)
Definition fallbackPostsAt (d1 d2 d3 d4 d5 : string) : list Post :=
  [ mkPost 1
      "🧠 Your brain grows with effort! Embrace challenges and see mistakes as learning opportunities. Growth mindset is the key to unlocking your potential!"
      d1 false false (mkTopic 1 "Growth Mindset");
    mkPost 2
      "📚 Active recall beats passive reading every time. Quiz yourself, create flashcards, teach others. Your brain learns by doing, not just seeing!"
      d2 false false (mkTopic 2 "Study Techniques");
    mkPost 3
      "🔄 Spaced repetition is learning's superpower. Review material at increasing intervals. Your memory will thank you with better retention!"
      d3 false false (mkTopic 3 "Memory");
    mkPost 4
      "🎯 Focus on deep work! Single-tasking leads to better results than multitasking. Give your brain the attention it deserves for quality learning."
      d4 false false (mkTopic 4 "Focus");
    mkPost 5
      "💡 Learning is not a spectator sport. Engage actively with material through questioning, discussing, and applying concepts in real situations."
      d5 false false (mkTopic 5 "Active Learning") ].

(** Each timestamp is its own [new Date().toISOString()]. *)
Definition fallbackPosts : Async (list Post) :=
  NewDate (fun d1 => NewDate (fun d2 => NewDate (fun d3 =>
  NewDate (fun d4 => NewDate (fun d5 =>
  Return (fallbackPostsAt d1 d2 d3 d4 d5)))))).

Local Open Scope async_scope.

(** [loadPosts] as memoised by the render [view] ([useCallback] with
    dependency [offset]): the [offset] it reads is the render's. *)
Definition loadPosts (view : FeedState) (reset : bool) : Async unit :=
  try
    ((if reset then (set (setLoading true) ;; set (setOffset 0))
      else set (setLoadingMore true)) ;;
     set (setError None) ;;
     let currentOffset := if reset then 0 else offset view in
     response <- fetch (feedRequest LIMIT currentOffset) ;;
     (if negb (ok response)
      then Throw (Error ("HTTP error! status: " ++ showNat (status response))%string)
      else skip) ;;
     data <- json response ;;
     match fst data with
     | Some data_posts =>
         (if reset
          then (set (setPosts data_posts) ;; set (setOffset (List.length data_posts)))
          else (set (updPosts (fun prevPosts => prevPosts ++ data_posts)) ;;
                set (updOffset (fun prev => prev + List.length data_posts)))) ;;
         match snd data with
         | Some data_has_more => set (setHasMore data_has_more)
         | None => set (setHasMore (List.length data_posts =? LIMIT))
         end
     | None =>
         set (setError (Some "No posts received from API")) ;;
         set (setHasMore false)
     end)
  catch (fun err =>
     set (setError (Some "Failed to load posts from API")) ;;
     (if reset
      then (fallback <- fallbackPosts ;; set (setPosts fallback))
      else skip) ;;
     set (setHasMore false))
  finally
    (set (setLoading false) ;;
     set (setRefreshing false) ;;
     set (setLoadingMore false)).

(** ** handleLike and handleDislike *)

(** [posts.findIndex(pred)]; [None] stands for -1. *)
Fixpoint findIndex {A : Type} (pred : A -> bool) (l : list A) : option nat :=
  match l with
  | [] => None
  | x :: l' =>
      if pred x then Some 0
      else match findIndex pred l' with
           | Some i => Some (S i)
           | None => None
           end
  end.

Definition feedbackRequest (postId : Z) (fields : JsonBody) : Request :=
  mkRequest
    (API_CONFIG.BASE_URL ++ "/api/v1/mobile/posts/" ++ showZ postId ++ "/feedback")%string
    PUT
    [("Content-Type", "application/json"); ("X-API-Key", API_CONFIG.API_KEY)]
    (Some fields).

Definition handleLike (view : FeedState) (postId : Z) : Async unit :=
  tryCatch
    (match findIndex (fun p => post_id p =? postId)%Z (posts view) with
     | None => skip
     | Some postIndex =>
         match nth_error (posts view) postIndex with
         | None => Throw TypeError
         | Some currentPost =>
             let newLikeStatus := negb (like_status currentPost) in
             set (updPosts (fun prevPosts =>
               map (fun post =>
                      if (post_id post =? postId)%Z
                      then withFlags post newLikeStatus false
                      else post) prevPosts)) ;;
             response <- fetch (feedbackRequest postId
                           [("like_status", newLikeStatus); ("dislike_status", false)]) ;;
             (if negb (ok response)
              then Throw (Error "Failed to update like status")
              else skip)
         end
     end)
    (fun error =>
       set (updPosts (fun prevPosts =>
         map (fun post =>
                if (post_id post =? postId)%Z
                then withFlags post (negb (like_status post)) (dislike_status post)
                else post) prevPosts))).

Definition handleDislike (view : FeedState) (postId : Z) : Async unit :=
  tryCatch
    (match findIndex (fun p => post_id p =? postId)%Z (posts view) with
     | None => skip
     | Some postIndex =>
         match nth_error (posts view) postIndex with
         | None => Throw TypeError
         | Some currentPost =>
             let newDislikeStatus := negb (dislike_status currentPost) in
             set (updPosts (fun prevPosts =>
               map (fun post =>
                      if (post_id post =? postId)%Z
                      then withFlags post false newDislikeStatus
                      else post) prevPosts)) ;;
             response <- fetch (feedbackRequest postId
                           [("dislike_status", newDislikeStatus); ("like_status", false)]) ;;
             (if negb (ok response)
              then Throw (Error "Failed to update dislike status")
              else skip)
         end
     end)
    (fun error =>
       set (updPosts (fun prevPosts =>
         map (fun post =>
                if (post_id post =? postId)%Z
                then withFlags post (like_status post) (negb (dislike_status post))
                else post) prevPosts))).

(** ** handleRefresh and handleLoadMore *)

(** [useCallback(..., [])]: the [loadPosts] it calls is the first
    render's. *)
Definition handleRefresh : Async unit :=
  set (setRefreshing true) ;;
  loadPosts firstRender true.

Definition handleLoadMore (view : FeedState) : Async unit :=
  if negb (loadingMore view) && hasMore view && negb (loading view)
  then loadPosts view false
  else skip.

(** ** What the component returns *)

(** The element tree of the component without its styling: the loading
    screen, or the header, the error banner and the list.  [data] is the
    list's [data], [refreshControl] the [refreshing] of its
    RefreshControl, [footer] its ListFooterComponent. *)
Inductive View : Type :=
| LoadingView (loadingText : string)
| FeedView (headerTitle headerSubtitle : string) (errorBanner : option string)
           (data : list Post) (refreshControl : bool) (footer : option string).

(** Truthiness of [error]: [null] and the empty string are falsy. *)
Definition truthy (value : option string) : bool :=
  match value with
  | None => false
  | Some text => 0 <? String.length text
  end.

Definition renderFooter (view : FeedState) : option string :=
  if negb (loadingMore view) then None
  else Some "Loading more posts...".

Definition render (view : FeedState) : View :=
  if loading view
  then LoadingView "Loading educational content..."
  else
    FeedView
      "🎓 Educational Feed"
      (showNat (List.length (posts view)) ++ " posts • "
         ++ (if truthy (error view) then "Offline mode" else "Live from API"))%string
      (if truthy (error view)
       then Some ("⚠️ " ++ match error view with Some text => text | None => "" end)%string
       else None)
      (posts view)
      (refreshing view)
      (renderFooter view).

(** [keyExtractor={(item) => item.post_id.toString()}] *)
Definition keyExtractor (item : Post) : string := showZ (post_id item).

(** ** The screen reacting to what the user and the network do *)

Inductive Event : Type :=
| Mount                       (* useEffect(() => loadPosts(true), []) *)
| PullToRefresh               (* RefreshControl onRefresh *)
| EndReached                  (* FlatList onEndReached *)
| TapLike (postId : Z)
| TapDislike (postId : Z).

Definition dispatch (view : FeedState) (e : Event) : Async unit :=
  match e with
  | Mount => loadPosts view true
  | PullToRefresh => handleRefresh
  | EndReached => handleLoadMore view
  | TapLike postId => handleLike view postId
  | TapDislike postId => handleDislike view postId
  end.

(** One handler run to the point the given replies take it; the
    handler closes over the current render. *)
Definition react (clock : nat -> string) (s : FeedState) (e : Event)
           (inbox : list FetchReply) : Run unit :=
  run clock (dispatch s e) s inbox 0.

(** A session: each event is handled, with its replies, before the next. *)
Definition session (clock : nat -> string) (s : FeedState)
           (script : list (Event * list FetchReply)) : FeedState :=
  fold_left (fun st step => hooks (react clock st (fst step) (snd step))) script s.



(** ** SecureStorage and ApiService *)

Module SecureStorage.

Definition API_KEY_STORAGE_KEY : string := "educational_app_api_key".

(** How [SecureStore.getItemAsync(key)] settles on the device. *)
Inductive StoreReply : Type :=
| StoreFails (cause : JsError)
| StoreHolds (value : option string).

Definition SecureStore : Type := string -> StoreReply.

Definition getApiKey (device : SecureStore) : option string :=
  match device API_KEY_STORAGE_KEY with
  | StoreHolds apiKey => apiKey
  | StoreFails _ => None
  end.

(** [apiKey !== null && apiKey.length > 0] *)
Definition hasApiKey (device : SecureStore) : bool :=
  match getApiKey device with
  | None => false
  | Some apiKey => 0 <? String.length apiKey
  end.

(** The keychain of expo-secure-store is outside the repository: its
    three calls are taken as they come, over some type [K] of keychain
    states.  A write or a delete may throw ([Some cause]) and leaves the
    keychain in the state it returns. *)
Record SecureStoreLib (K : Type) : Type := mkSecureStoreLib {
  getItemAsync : string -> K -> StoreReply;
  setItemAsync : string -> string -> K -> option JsError * K;
  deleteItemAsync : string -> K -> option JsError * K
}.

Arguments getItemAsync {K} s key keychain.
Arguments setItemAsync {K} s key value keychain.
Arguments deleteItemAsync {K} s key keychain.

(** What reading finds on a keychain. *)
Definition onDevice {K : Type} (lib : SecureStoreLib K) (keychain : K) : SecureStore :=
  fun key => getItemAsync lib key keychain.

Definition storeApiKey {K : Type} (lib : SecureStoreLib K) (apiKey : string) (keychain : K)
  : bool * K :=
  match setItemAsync lib API_KEY_STORAGE_KEY apiKey keychain with
  | (None, keychain') => (true, keychain')
  | (Some error, keychain') => (false, keychain')
  end.

Definition removeApiKey {K : Type} (lib : SecureStoreLib K) (keychain : K) : bool * K :=
  match deleteItemAsync lib API_KEY_STORAGE_KEY keychain with
  | (None, keychain') => (true, keychain')
  | (Some error, keychain') => (false, keychain')
  end.

End SecureStorage.

Module ApiService.

Record Options : Type := mkOptions {
  opt_method : option Method;
  opt_headers : list (string * string);
  opt_body : option JsonBody
}.

(** [options = {}] *)
Definition noOptions : Options := mkOptions None [] None.

(** [!apiKey]: [null] and the empty string are falsy. *)
Definition falsy (apiKey : option string) : bool :=
  match apiKey with
  | None => true
  | Some key => (String.length key =? 0)
  end.

(** One property written into an object literal: an existing key keeps
    its place and takes the new value, a new key goes last. *)
Fixpoint assign (obj : list (string * string)) (kv : string * string)
  : list (string * string) :=
  match obj with
  | [] => [kv]
  | (k, v) :: obj' =>
      if String.eqb k (fst kv) then (k, snd kv) :: obj'
      else (k, v) :: assign obj' kv
  end.

(** [{ ...base, ...extra }] *)
Definition spread (base extra : list (string * string)) : list (string * string) :=
  fold_left assign extra base.

Definition makeRequest (device : SecureStorage.SecureStore) (endpoint : string)
           (options : Options) : Async Response :=
  tryCatch
    (let apiKey := SecureStorage.getApiKey device in
     if falsy apiKey
     then Throw (Error "API key not found. Please configure the app.")
     else
       let headers :=
         spread [("Content-Type", "application/json");
                 ("X-API-Key", match apiKey with Some key => key | None => "" end)]
                (opt_headers options) in
       response <- fetch (mkRequest (API_CONFIG.BASE_URL ++ endpoint)%string
                            (match opt_method options with
                             | Some m => m
                             | None => GET
                             end)
                            headers (opt_body options)) ;;
       if status response =? 401
       then Throw (Error "Invalid API key. Please reconfigure the app.")
       else if negb (ok response)
       then Throw (Error ("HTTP error! status: " ++ showNat (status response))%string)
       else Return response)
    (fun error => Throw error).

(** [getMobileFeed(limit = 20, offset = 0)] *)
Definition getMobileFeed (device : SecureStorage.SecureStore) (limit offset : option nat)
  : Async Payload :=
  let limit := match limit with Some n => n | None => 20 end in
  let offset := match offset with Some n => n | None => 0 end in
  response <- makeRequest device
    ("/api/v1/mobile/feed?limit=" ++ showNat limit ++ "&offset=" ++ showNat offset)%string
    noOptions ;;
  parseJson response.

Definition updatePostFeedback (device : SecureStorage.SecureStore) (postId : Z)
           (feedback : JsonBody) : Async Payload :=
  response <- makeRequest device
    ("/api/v1/mobile/posts/" ++ showZ postId ++ "/feedback")%string
    (mkOptions (Some PUT) [] (Some feedback)) ;;
  parseJson response.

Definition getMobileStats (device : SecureStorage.SecureStore) : Async Payload :=
  response <- makeRequest device "/api/v1/mobile/stats" noOptions ;;
  parseJson response.

End ApiService.

Local Close Scope async_scope.


(** ** Vocabulary for the statements *)

Definition ids (l : list Post) : list Z := map post_id l.

(** The replies under which the [try] block of a [fetch]-and-parse
    throws: the promise rejects (network error), the status is not
    2xx, or the body of a 2xx response is not JSON or is [null].  (A
    number, string, boolean or array does not throw: it has no [posts].) *)
Definition throwsIn (reply : FetchReply) : bool :=
  match reply with
  | Rejects _ => true
  | Responds response =>
      negb (ok response) ||
      match payload response with
      | JsonObject _ _ => false
      | _ => true
      end
  end.

(** A successful feed load: a 2xx response whose body has [posts]. *)
Definition pageOf (reply : FetchReply) : option (list Post * option bool) :=
  match reply with
  | Rejects _ => None
  | Responds response =>
      if ok response
      then match payload response with
           | JsonObject (Some page) has_more => Some (page, has_more)
           | _ => None
           end
      else None
  end.

(** A 2xx response whose body is an object without [posts]. *)
Definition lacksPosts (reply : FetchReply) : bool :=
  match reply with
  | Rejects _ => false
  | Responds response =>
      ok response &&
      match payload response with
      | JsonObject None _ => true
      | _ => false
      end
  end.

Definition feedPage (page : list Post) (has_more : option bool) : FetchReply :=
  Responds (mkResponse 200 (JsonObject (Some page) has_more)).

(** The fallback posts as read off the clock from reading [tick] on. *)
Definition placeholders (clock : nat -> string) (tick : nat) : list Post :=
  fallbackPostsAt (clock tick) (clock (1 + tick)) (clock (2 + tick))
                  (clock (3 + tick)) (clock (4 + tick)).

(** The value [setHasMore] receives after a page. *)
Definition moreAfter (page : list Post) (has_more : option bool) : bool :=
  match has_more with
  | Some flag => flag
  | None => List.length page =? LIMIT
  end.


Definition zeroFlags (post : Post) : Prop :=
  like_status post = false /\ dislike_status post = false.

Definition hasId (postId : Z) (post : Post) : bool := (post_id post =? postId)%Z.

(** [prevPosts.map(post => post.post_id === postId ? f(post) : post)] *)
Definition onPost (postId : Z) (f : Post -> Post) (l : list Post) : list Post :=
  map (fun post => if hasId postId post then f post else post) l.

(** The [try] block of a feedback handler throws: the promise rejects
    or the status is not 2xx. *)
Definition putFails (reply : FetchReply) : bool :=
  match reply with
  | Rejects _ => true
  | Responds response => negb (ok response)
  end.

(** Sample data for the concrete runs. *)
Definition samplePost (n : Z) (l d : bool) : Post :=
  mkPost n "Spaced repetition works." "2025-01-01T00:00:00.000Z" l d (mkTopic 3 "Memory").

Definition sampleClock (n : nat) : string := "2025-01-02T00:00:00.000Z".

(** A screen holding two loaded posts, idle. *)
Definition heldFeed : FeedState :=
  mkFeed [samplePost 7 false false; samplePost 8 true false]
         false false false true None 2.

(** What the server must grant for identities to stay distinct: a page
    that replaces the feed repeats no identity, and a page that is
    appended repeats none of its own nor any already held. *)
Definition serverFresh (s : FeedState) (e : Event) (reply : FetchReply) : Prop :=
  match pageOf reply with
  | None => True
  | Some (page, _) =>
      match e with
      | Mount | PullToRefresh => NoDup (ids page)
      | EndReached => NoDup (ids (posts s ++ page))
      | TapLike _ | TapDislike _ => True
      end
  end.

Fixpoint freshScript (clock : nat -> string) (s : FeedState)
         (script : list (Event * list FetchReply)) : Prop :=
  match script with
  | [] => True
  | (e, inbox) :: rest =>
      Forall (serverFresh s e) inbox /\
      freshScript clock (hooks (react clock s e inbox)) rest
  end.


(** The posts a reply delivers (none unless the load is successful). *)
Definition pagePosts (reply : FetchReply) : list Post :=
  match pageOf reply with
  | Some (page, _) => page
  | None => []
  end.

(** End-of-list triggers, each answered with the next reply. *)
Definition appendScript (replies : list FetchReply) : list (Event * list FetchReply) :=
  map (fun reply => (EndReached, [reply])) replies.

(** A run of successful appends: every reply delivers a page, and the
    page is in fact requested because [hasMore] is true when its turn
    comes ([more] is the flag before the first of them). *)
Fixpoint requested (more : bool) (replies : list FetchReply) : bool :=
  match replies with
  | [] => true
  | reply :: rest =>
      match pageOf reply with
      | Some (page, has_more) => more && requested (moreAfter page has_more) rest
      | None => false
      end
  end.

Definition sizes (replies : list FetchReply) : list nat :=
  map (fun reply => List.length (pagePosts reply)) replies.

Definition stripFlags (post : Post) : Post := withFlags post false false.

(** The cursor is in step with the feed whenever an append may be
    requested. *)
Definition cursorInSync (s : FeedState) : Prop :=
  loading s = false -> hasMore s = true -> offset s = List.length (posts s).

(** No error is showing while the feed may still grow. *)
Definition quietWhilePaging (s : FeedState) : Prop :=
  hasMore s = true -> error s = None.

(** [obj[key]] on an object kept as its properties in order. *)
Fixpoint getProp (obj : list (string * string)) (key : string) : option string :=
  match obj with
  | [] => None
  | (k, v) :: rest => if String.eqb k key then Some v else getProp rest key
  end.

(** A keychain returns what was last written under a key. *)
Definition keepsWrites {K : Type} (lib : SecureStorage.SecureStoreLib K) : Prop :=
  forall key value keychain keychain',
    SecureStorage.setItemAsync lib key value keychain = (None, keychain') ->
    SecureStorage.getItemAsync lib key keychain' = SecureStorage.StoreHolds (Some value).

(** A keychain holds nothing under a key it deleted. *)
Definition forgetsDeleted {K : Type} (lib : SecureStorage.SecureStoreLib K) : Prop :=
  forall key keychain keychain',
    SecureStorage.deleteItemAsync lib key keychain = (None, keychain') ->
    SecureStorage.getItemAsync lib key keychain' = SecureStorage.StoreHolds None.

(** A keychain for the concrete runs: an association list, newest first,
    whose calls never throw. *)
Definition listKeychain : SecureStorage.SecureStoreLib (list (string * string)) :=
  SecureStorage.mkSecureStoreLib _
    (fun key keychain => SecureStorage.StoreHolds (getProp keychain key))
    (fun key value keychain => (None, (key, value) :: keychain))
    (fun key keychain =>
       (None, filter (fun kv => negb (String.eqb (fst kv) key)) keychain)).

(** ** How one [loadPosts] ends, by the reply it gets *)

Arguments ok : simpl never.
Arguments showNat : simpl never.
Arguments showZ : simpl never.
Arguments feedRequest : simpl never.
Arguments feedbackRequest : simpl never.
Arguments fallbackPostsAt : simpl never.
Arguments String.append : simpl never.

Lemma reply_cases (reply : FetchReply) :
  (exists page has_more, pageOf reply = Some (page, has_more)) \/
  lacksPosts reply = true \/
  throwsIn reply = true.
Proof.
  destruct reply as [cause | [st pl]]; cbn.
  - right; right; reflexivity.
  - destruct (ok _); cbn.
    + destruct pl as [ | | [page | ] hm]; eauto.
    + right; right; reflexivity.
Qed.

Lemma loadPosts_page clock view reset s reply inbox tick page has_more :
  pageOf reply = Some (page, has_more) ->
  run clock (loadPosts view reset) s (reply :: inbox) tick =
  mkRun (Fulfilled tt)
        (mkFeed (if reset then page else posts s ++ page)
                false false false (moreAfter page has_more) None
                (if reset then List.length page else offset s + List.length page))
        [feedRequest LIMIT (if reset then 0 else offset view)].
Proof.
  destruct reply as [cause | [st pl]]; cbn; [discriminate | ].
  destruct (ok _) eqn:Hok; [ | discriminate].
  destruct pl as [ | | [pg | ] hm]; try discriminate.
  intros H; injection H as -> ->.
  unfold loadPosts.
  destruct reset, has_more as [flag | ]; cbn; rewrite Hok; cbn; reflexivity.
Qed.

Lemma loadPosts_nodata clock view reset s reply inbox tick :
  lacksPosts reply = true ->
  run clock (loadPosts view reset) s (reply :: inbox) tick =
  mkRun (Fulfilled tt)
        (mkFeed (posts s) false false false false
                (Some "No posts received from API")
                (if reset then 0 else offset s))
        [feedRequest LIMIT (if reset then 0 else offset view)].
Proof.
  destruct reply as [cause | [st pl]]; cbn; [discriminate | ].
  destruct (ok _) eqn:Hok; [ | discriminate].
  destruct pl as [ | | [pg | ] hm]; try discriminate.
  intros _. unfold loadPosts.
  destruct reset; cbn; rewrite Hok; cbn; reflexivity.
Qed.

Lemma loadPosts_throws clock view reset s reply inbox tick :
  throwsIn reply = true ->
  run clock (loadPosts view reset) s (reply :: inbox) tick =
  mkRun (Fulfilled tt)
        (mkFeed (if reset then placeholders clock tick else posts s)
                false false false false
                (Some "Failed to load posts from API")
                (if reset then 0 else offset s))
        [feedRequest LIMIT (if reset then 0 else offset view)].
Proof.
  unfold loadPosts, placeholders.
  destruct reply as [cause | [st pl]]; cbn.
  - intros _. destruct reset; cbn; reflexivity.
  - destruct (ok _) eqn:Hok; cbn.
    + destruct pl as [ | | pg hm]; try discriminate; intros _;
        destruct reset; cbn; rewrite Hok; cbn; reflexivity.
    + intros _. destruct reset; cbn; rewrite Hok; cbn; reflexivity.
Qed.

Lemma loadPosts_pending clock view reset s tick :
  run clock (loadPosts view reset) s [] tick =
  mkRun Pending
        (mkFeed (posts s) (if reset then true else loading s) (refreshing s)
                (if reset then loadingMore s else true) (hasMore s) None
                (if reset then 0 else offset s))
        [feedRequest LIMIT (if reset then 0 else offset view)].
Proof.
  unfold loadPosts. destruct reset; cbn; reflexivity.
Qed.

(** ** How one feedback tap ends, by the reply it gets *)

Lemma findIndex_find {A : Type} (pred : A -> bool) (l : list A) :
  match findIndex pred l with
  | Some i => exists x, nth_error l i = Some x /\ find pred l = Some x
  | None => find pred l = None
  end.
Proof.
  induction l as [ | a l IH]; cbn; [reflexivity | ].
  destruct (pred a); [exists a; split; reflexivity | ].
  destruct (findIndex pred l) as [i | ]; exact IH.
Qed.

Lemma revert_like postId flag l :
  onPost postId (fun post => withFlags post (negb (like_status post)) (dislike_status post))
         (onPost postId (fun post => withFlags post flag false) l)
  = onPost postId (fun post => withFlags post (negb flag) false) l.
Proof.
  unfold onPost. rewrite map_map. apply map_ext. intros post.
  destruct (hasId postId post) eqn:H.
  - unfold hasId in *. cbn. rewrite H. reflexivity.
  - rewrite H. reflexivity.
Qed.

Lemma revert_dislike postId flag l :
  onPost postId (fun post => withFlags post (like_status post) (negb (dislike_status post)))
         (onPost postId (fun post => withFlags post false flag) l)
  = onPost postId (fun post => withFlags post false (negb flag)) l.
Proof.
  unfold onPost. rewrite map_map. apply map_ext. intros post.
  destruct (hasId postId post) eqn:H.
  - unfold hasId in *. cbn. rewrite H. reflexivity.
  - rewrite H. reflexivity.
Qed.

Lemma onPost_absent postId f l :
  find (hasId postId) l = None -> onPost postId f l = l.
Proof.
  induction l as [ | a l IH]; cbn; [reflexivity | ].
  destruct (hasId postId a); [discriminate | ].
  intros H. f_equal. exact (IH H).
Qed.

Lemma handleLike_run clock s postId inbox tick :
  run clock (handleLike s postId) s inbox tick =
  match find (hasId postId) (posts s) with
  | None => mkRun (Fulfilled tt) s []
  | Some currentPost =>
      let request :=
        feedbackRequest postId
          [("like_status", negb (like_status currentPost)); ("dislike_status", false)] in
      let optimistic :=
        onPost postId (fun post => withFlags post (negb (like_status currentPost)) false)
               (posts s) in
      match inbox with
      | [] => mkRun Pending (setPosts optimistic s) [request]
      | reply :: _ =>
          mkRun (Fulfilled tt)
                (setPosts (if putFails reply
                           then onPost postId
                                  (fun post => withFlags post (like_status currentPost) false)
                                  (posts s)
                           else optimistic) s)
                [request]
      end
  end.
Proof.
  unfold handleLike.
  pose proof (findIndex_find (hasId postId) (posts s)) as H.
  change (fun p : Post => (post_id p =? postId)%Z) with (hasId postId).
  destruct (findIndex (hasId postId) (posts s)) as [i | ].
  - destruct H as (cur & Hnth & Hfind). rewrite Hnth, Hfind.
    destruct inbox as [ | [cause | response] inbox]; cbn; [reflexivity | | ].
    + pose proof (revert_like postId (negb (like_status cur)) (posts s)) as R.
      rewrite negb_involutive in R.
      unfold setPosts, updPosts, onPost, hasId in *; cbn. rewrite R. reflexivity.
    + destruct (ok response); cbn; [reflexivity | ].
      pose proof (revert_like postId (negb (like_status cur)) (posts s)) as R.
      rewrite negb_involutive in R.
      unfold setPosts, updPosts, onPost, hasId in *; cbn. rewrite R. reflexivity.
  - rewrite H. reflexivity.
Qed.

Lemma handleDislike_run clock s postId inbox tick :
  run clock (handleDislike s postId) s inbox tick =
  match find (hasId postId) (posts s) with
  | None => mkRun (Fulfilled tt) s []
  | Some currentPost =>
      let request :=
        feedbackRequest postId
          [("dislike_status", negb (dislike_status currentPost)); ("like_status", false)] in
      let optimistic :=
        onPost postId (fun post => withFlags post false (negb (dislike_status currentPost)))
               (posts s) in
      match inbox with
      | [] => mkRun Pending (setPosts optimistic s) [request]
      | reply :: _ =>
          mkRun (Fulfilled tt)
                (setPosts (if putFails reply
                           then onPost postId
                                  (fun post => withFlags post false (dislike_status currentPost))
                                  (posts s)
                           else optimistic) s)
                [request]
      end
  end.
Proof.
  unfold handleDislike.
  pose proof (findIndex_find (hasId postId) (posts s)) as H.
  change (fun p : Post => (post_id p =? postId)%Z) with (hasId postId).
  destruct (findIndex (hasId postId) (posts s)) as [i | ].
  - destruct H as (cur & Hnth & Hfind). rewrite Hnth, Hfind.
    pose proof (revert_dislike postId (negb (dislike_status cur)) (posts s)) as R.
    rewrite negb_involutive in R.
    destruct inbox as [ | [cause | response] inbox]; cbn; [reflexivity | | ].
    + unfold setPosts, updPosts, onPost, hasId in *; cbn. rewrite R. reflexivity.
    + destruct (ok response); cbn; [reflexivity | ].
      unfold setPosts, updPosts, onPost, hasId in *; cbn. rewrite R. reflexivity.
  - rewrite H. reflexivity.
Qed.

(** ** The events, by the handler they start *)

Lemma react_Mount clock s inbox :
  react clock s Mount inbox = run clock (loadPosts s true) s inbox 0.
Proof. reflexivity. Qed.

Lemma react_PullToRefresh clock s inbox :
  react clock s PullToRefresh inbox =
  run clock (loadPosts firstRender true) (setRefreshing true s) inbox 0.
Proof. reflexivity. Qed.

Lemma react_EndReached clock s inbox :
  react clock s EndReached inbox =
  if negb (loadingMore s) && hasMore s && negb (loading s)
  then run clock (loadPosts s false) s inbox 0
  else mkRun (Fulfilled tt) s [].
Proof.
  unfold react, dispatch, handleLoadMore.
  destruct (negb (loadingMore s) && hasMore s && negb (loading s)); reflexivity.
Qed.

Lemma session_cons clock s e inbox script :
  session clock s ((e, inbox) :: script) =
  session clock (hooks (react clock s e inbox)) script.
Proof. reflexivity. Qed.

Lemma session_snoc clock s script e inbox :
  session clock s (script ++ [(e, inbox)]) =
  hooks (react clock (session clock s script) e inbox).
Proof. unfold session. rewrite fold_left_app. reflexivity. Qed.

(** What a tap leaves behind: the hooks as they were, or the posts with
    the flags of the tapped identity set to a pair that is not
    (true, true). *)
Lemma tap_result clock s e inbox postId :
  e = TapLike postId \/ e = TapDislike postId ->
  (find (hasId postId) (posts s) = None /\ hooks (react clock s e inbox) = s) \/
  exists l d, l && d = false /\
    hooks (react clock s e inbox) =
    setPosts (onPost postId (fun post => withFlags post l d) (posts s)) s.
Proof.
  intros [-> | ->]; unfold react, dispatch.
  - rewrite handleLike_run.
    destruct (find (hasId postId) (posts s)) as [cur | ]; [ | left; split; reflexivity].
    right. destruct inbox as [ | reply inbox]; cbn.
    + exists (negb (like_status cur)), false. split; [apply andb_false_r | reflexivity].
    + destruct (putFails reply).
      * exists (like_status cur), false. split; [apply andb_false_r | reflexivity].
      * exists (negb (like_status cur)), false. split; [apply andb_false_r | reflexivity].
  - rewrite handleDislike_run.
    destruct (find (hasId postId) (posts s)) as [cur | ]; [ | left; split; reflexivity].
    right. destruct inbox as [ | reply inbox]; cbn.
    + exists false, (negb (dislike_status cur)). split; reflexivity.
    + destruct (putFails reply).
      * exists false, (dislike_status cur). split; reflexivity.
      * exists false, (negb (dislike_status cur)). split; reflexivity.
Qed.

Lemma onPost_ids postId l d posts0 :
  ids (onPost postId (fun post => withFlags post l d) posts0) = ids posts0.
Proof.
  unfold ids, onPost. rewrite map_map. apply map_ext.
  intros post. destruct (hasId postId post); reflexivity.
Qed.

Lemma placeholders_ids clock tick : ids (placeholders clock tick) = [1; 2; 3; 4; 5]%Z.
Proof. reflexivity. Qed.

Lemma NoDup_12345 : NoDup [1; 2; 3; 4; 5]%Z.
Proof.
  repeat (constructor; [cbn; intuition discriminate | ]). constructor.
Qed.

(** ** Failed loads and the fallback posts *)

(** C1 (the code departs from the claim).  A pull-to-refresh whose request
    is rejected replaces whatever posts are held by the five fallback
    posts: [handleRefresh] calls [loadPosts(true)] and the [catch] block
    substitutes on [reset], not on an empty feed.  On the sample screen
    holding posts 7 and 8 the held posts are lost. *)
Theorem refresh_failure_replaces_held_posts :
  (forall clock s cause,
      posts (hooks (react clock s PullToRefresh [Rejects cause])) = placeholders clock 0) /\
  posts (hooks (react sampleClock heldFeed PullToRefresh [Rejects TypeError]))
    <> posts heldFeed.
Proof.
  split.
  - intros clock s cause. rewrite react_PullToRefresh.
    rewrite loadPosts_throws by reflexivity. reflexivity.
  - rewrite react_PullToRefresh, loadPosts_throws by reflexivity.
    cbn. discriminate.
Qed.

(** C3, counterexample: a first load that succeeds with an empty page
    completes and leaves no post held; so does a first load answered 200
    with a body that has no posts, which sets the error. *)
Lemma first_load_may_hold_nothing :
  (settled (react sampleClock firstRender Mount [feedPage [] None]) = Fulfilled tt /\
   posts (hooks (react sampleClock firstRender Mount [feedPage [] None])) = []) /\
  (settled (react sampleClock firstRender Mount
              [Responds (mkResponse 200 (JsonObject None None))]) = Fulfilled tt /\
   posts (hooks (react sampleClock firstRender Mount
                   [Responds (mkResponse 200 (JsonObject None None))])) = [] /\
   error (hooks (react sampleClock firstRender Mount
                   [Responds (mkResponse 200 (JsonObject None None))]))
     = Some "No posts received from API").
Proof. repeat split. Qed.

(** C3, amended: the very first load always completes, and what is held
    afterwards goes by its reply.  When the load throws (the request is
    rejected by the network, the status is not 2xx, or the body of a 2xx
    response is not JSON or is null), the five fallback posts are held,
    their feedback flags both false, [hasMore] is false and the error is
    [Failed to load posts from API].  When a 2xx response brings a posts
    array, that page is held, empty or not, with no error.  When a 2xx
    response has a body without posts (an object without them, or a
    number, string, boolean or array), nothing is held, the error is
    [No posts received from API] and [hasMore] is false.  So the held
    sequence is empty after the first load exactly when the reply was a
    body without posts or an empty page. *)
Theorem first_load_outcomes :
  forall clock reply,
    settled (react clock firstRender Mount [reply]) = Fulfilled tt /\
    (throwsIn reply = true ->
     posts (hooks (react clock firstRender Mount [reply])) = placeholders clock 0 /\
     List.length (posts (hooks (react clock firstRender Mount [reply]))) = 5 /\
     Forall zeroFlags (posts (hooks (react clock firstRender Mount [reply]))) /\
     posts (hooks (react clock firstRender Mount [reply])) <> [] /\
     hasMore (hooks (react clock firstRender Mount [reply])) = false /\
     error (hooks (react clock firstRender Mount [reply]))
       = Some "Failed to load posts from API" /\
     loading (hooks (react clock firstRender Mount [reply])) = false) /\
    (forall page has_more,
        pageOf reply = Some (page, has_more) ->
        posts (hooks (react clock firstRender Mount [reply])) = page /\
        error (hooks (react clock firstRender Mount [reply])) = None /\
        loading (hooks (react clock firstRender Mount [reply])) = false) /\
    (lacksPosts reply = true ->
     posts (hooks (react clock firstRender Mount [reply])) = [] /\
     hasMore (hooks (react clock firstRender Mount [reply])) = false /\
     error (hooks (react clock firstRender Mount [reply]))
       = Some "No posts received from API" /\
     loading (hooks (react clock firstRender Mount [reply])) = false) /\
    (posts (hooks (react clock firstRender Mount [reply])) = [] <->
     lacksPosts reply = true \/ exists has_more, pageOf reply = Some ([], has_more)).
Proof.
  intros clock reply. rewrite react_Mount.
  destruct (reply_cases reply) as [(page & hm & Hp) | [Hn | Ht]].
  - assert (Hnl : lacksPosts reply = false /\ throwsIn reply = false).
    { destruct reply as [cause | response]; [discriminate | ]. cbn in *.
      destruct (ok response); [ | discriminate].
      destruct (payload response) as [ | | [pg | ] h]; try discriminate.
      split; reflexivity. }
    destruct Hnl as [Hnl Hnt].
    rewrite (loadPosts_page _ _ _ _ _ _ _ _ _ Hp), Hp, Hnl, Hnt. cbn.
    split; [reflexivity | split; [discriminate | split; [ | split; [discriminate | ]]]].
    + intros page' hm' H. injection H as <- <-. repeat split.
    + split.
      * intros ->. right. exists hm. reflexivity.
      * intros [H | (hm' & H)]; [discriminate | ]. injection H as -> _. reflexivity.
  - assert (Hnp : pageOf reply = None /\ throwsIn reply = false).
    { destruct reply as [cause | response]; [discriminate | ]. cbn in *.
      destruct (ok response); [ | discriminate].
      destruct (payload response) as [ | | [pg | ] h]; try discriminate.
      split; reflexivity. }
    destruct Hnp as [Hnp Hnt].
    rewrite (loadPosts_nodata _ _ _ _ _ _ _ Hn), Hnp, Hnt, Hn. cbn.
    split; [reflexivity | split; [discriminate | split; [discriminate | split]]].
    + intros _. repeat split.
    + split; [intros _; left; reflexivity | reflexivity].
  - assert (Hnp : pageOf reply = None /\ lacksPosts reply = false).
    { destruct reply as [cause | response]; [split; reflexivity | ]. cbn in *.
      destruct (ok response); [ | split; reflexivity].
      destruct (payload response) as [ | | [pg | ] h];
        try (split; reflexivity); discriminate. }
    destruct Hnp as [Hnp Hnl].
    rewrite (loadPosts_throws _ _ _ _ _ _ _ Ht), Hnp, Hnl, Ht. cbn.
    split; [reflexivity | split; [ | split; [discriminate | split; [discriminate | ]]]].
    + intros _. repeat split; try reflexivity; try discriminate.
      unfold placeholders, fallbackPostsAt.
      repeat (constructor; [split; reflexivity | ]). constructor.
    + split; [discriminate | ].
      intros [H | (hm' & H)]; discriminate.
Qed.

Lemma first_load_outcomes_witness :
  throwsIn (Rejects TypeError) = true /\
  posts (hooks (react sampleClock firstRender Mount [Rejects TypeError]))
    = placeholders sampleClock 0 /\
  hasMore (hooks (react sampleClock firstRender Mount [Rejects TypeError])) = false.
Proof.
  destruct (first_load_outcomes sampleClock (Rejects TypeError)) as (_ & Hthrows & _).
  destruct (Hthrows eq_refl) as (Hposts & _ & _ & _ & Hmore & _).
  split; [reflexivity | split; [exact Hposts | exact Hmore]].
Defined.

(** ** Identities in the held sequence *)

(** The three ways a reply ends the [loadPosts] at the head of the goal. *)
Ltac settle_load reply page hm :=
  let Hp := fresh "Hpage" in
  let Hn := fresh "Hnodata" in
  let Ht := fresh "Hthrows" in
  destruct (reply_cases reply) as [(page & hm & Hp) | [Hn | Ht]];
  [ rewrite (loadPosts_page _ _ _ _ _ _ _ _ _ Hp)
  | rewrite (loadPosts_nodata _ _ _ _ _ _ _ Hn)
  | rewrite (loadPosts_throws _ _ _ _ _ _ _ Ht) ].

Lemma load_keeps_ids_distinct clock view (reset : bool) s inbox :
  NoDup (ids (posts s)) ->
  Forall (fun reply =>
            match pageOf reply with
            | None => True
            | Some (page, _) =>
                NoDup (ids (if reset then page else posts s ++ page))
            end) inbox ->
  NoDup (ids (posts (hooks (run clock (loadPosts view reset) s inbox 0)))).
Proof.
  intros Hs Hfresh.
  destruct inbox as [ | reply inbox].
  - rewrite loadPosts_pending. exact Hs.
  - apply Forall_inv in Hfresh.
    settle_load reply page hm.
    + rewrite Hpage in Hfresh. exact Hfresh.
    + exact Hs.
    + cbn. destruct reset; [ | exact Hs].
      rewrite placeholders_ids. exact NoDup_12345.
Qed.

Lemma react_keeps_ids_distinct clock s e inbox :
  NoDup (ids (posts s)) ->
  Forall (serverFresh s e) inbox ->
  NoDup (ids (posts (hooks (react clock s e inbox)))).
Proof.
  intros Hs Hfresh. destruct e as [ | | | postId | postId].
  - rewrite react_Mount. apply load_keeps_ids_distinct; assumption.
  - rewrite react_PullToRefresh. apply load_keeps_ids_distinct; assumption.
  - rewrite react_EndReached.
    destruct (negb (loadingMore s) && hasMore s && negb (loading s)); [ | exact Hs].
    apply load_keeps_ids_distinct; assumption.
  - destruct (tap_result clock s (TapLike postId) inbox postId) as [[_ ->] | (l & d & _ & ->)];
      [left; reflexivity | exact Hs | ].
    cbn. rewrite onPost_ids. exact Hs.
  - destruct (tap_result clock s (TapDislike postId) inbox postId) as [[_ ->] | (l & d & _ & ->)];
      [right; reflexivity | exact Hs | ].
    cbn. rewrite onPost_ids. exact Hs.
Qed.

(** C2, counterexample: the server returns post 7 on the first page and
    again on the next; both copies are held. *)
Lemma repeated_identity_is_held :
  ~ NoDup (ids (posts (session sampleClock firstRender
             [(Mount, [feedPage [samplePost 7 false false] (Some true)]);
              (EndReached, [feedPage [samplePost 7 true false] None])]))).
Proof.
  cbn. intros H. inversion H as [ | x l Hnotin _]. apply Hnotin. left. reflexivity.
Qed.

(** C2, amended: the screen removes no duplicates; the held sequence has
    no two posts with the same [post_id] after every operation (load,
    refresh, append, feedback tap, in any order and with any outcome)
    as long as the server repeats no identity: no page repeats one, and
    no appended page brings one already held. *)
Theorem held_ids_distinct_if_server_repeats_none :
  forall clock script s,
    NoDup (ids (posts s)) ->
    freshScript clock s script ->
    NoDup (ids (posts (session clock s script))).
Proof.
  intros clock script. induction script as [ | [e inbox] rest IH]; intros s Hs Hfresh.
  - exact Hs.
  - destruct Hfresh as [Hhere Hrest]. rewrite session_cons.
    apply IH; [ | exact Hrest].
    apply react_keeps_ids_distinct; assumption.
Qed.

Lemma held_ids_distinct_witness :
  NoDup (ids (posts firstRender)) /\
  freshScript sampleClock firstRender
    [(Mount, [feedPage [samplePost 7 false false] (Some true)]);
     (TapLike 7, [Rejects TypeError]);
     (EndReached, [feedPage [samplePost 8 false false] None])] /\
  NoDup (ids (posts (session sampleClock firstRender
    [(Mount, [feedPage [samplePost 7 false false] (Some true)]);
     (TapLike 7, [Rejects TypeError]);
     (EndReached, [feedPage [samplePost 8 false false] None])]))).
Proof.
  assert (H0 : NoDup (ids (posts firstRender))) by constructor.
  assert (H1 : freshScript sampleClock firstRender
    [(Mount, [feedPage [samplePost 7 false false] (Some true)]);
     (TapLike 7, [Rejects TypeError]);
     (EndReached, [feedPage [samplePost 8 false false] None])]).
  { cbn. repeat split; repeat constructor; cbn; intuition discriminate. }
  split; [exact H0 | split; [exact H1 | ]].
  exact (held_ids_distinct_if_server_repeats_none sampleClock _ firstRender H0 H1).
Defined.

(** ** Optimistic feedback *)

Lemma find_onPost postId l d posts0 currentPost :
  find (hasId postId) posts0 = Some currentPost ->
  find (hasId postId) (onPost postId (fun post => withFlags post l d) posts0)
  = Some (withFlags currentPost l d).
Proof.
  induction posts0 as [ | a rest IH]; cbn; [discriminate | ].
  destruct (hasId postId a) eqn:Ha.
  - intros H; injection H as ->. unfold hasId in *. cbn. rewrite Ha. reflexivity.
  - rewrite Ha. exact IH.
Qed.








(** ** Pagination: hasMore, the cursor and the order of posts *)

(** C5: after every successful feed load (a 2xx response with a [posts]
    array, reset or append) [hasMore] is the [has_more] of the response
    when it has one, and otherwise whether the page has exactly [LIMIT]
    posts.  A page shorter than [LIMIT] without [has_more] gives
    [hasMore = false], and the next end-of-list trigger returns at once:
    no request is sent and the hooks stay as they are. *)
Theorem hasMore_after_successful_load :
  forall clock view reset s reply inbox page has_more,
    pageOf reply = Some (page, has_more) ->
    hasMore (hooks (run clock (loadPosts view reset) s (reply :: inbox) 0))
      = match has_more with
        | Some flag => flag
        | None => List.length page =? LIMIT
        end /\
    (has_more = None ->
     List.length page < LIMIT ->
     hasMore (hooks (run clock (loadPosts view reset) s (reply :: inbox) 0)) = false /\
     forall later,
       react clock (hooks (run clock (loadPosts view reset) s (reply :: inbox) 0))
             EndReached later
       = mkRun (Fulfilled tt)
               (hooks (run clock (loadPosts view reset) s (reply :: inbox) 0)) []).
Proof.
  intros clock view reset s reply inbox page has_more Hpage.
  rewrite (loadPosts_page _ _ _ _ _ _ _ _ _ Hpage).
  split; [reflexivity | ].
  intros -> Hshort.
  assert (Hneq : (List.length page =? LIMIT) = false) by (apply Nat.eqb_neq; lia).
  split; [exact Hneq | ].
  intros later. rewrite react_EndReached. cbn. rewrite Hneq. reflexivity.
Qed.

(** The example of the specification: five posts, no [has_more]. *)
Lemma hasMore_after_successful_load_witness :
  pageOf (feedPage (map (fun n => samplePost n false false) [1; 2; 3; 4; 5]%Z) None)
    = Some (map (fun n => samplePost n false false) [1; 2; 3; 4; 5]%Z, None) /\
  hasMore (hooks (react sampleClock firstRender Mount
            [feedPage (map (fun n => samplePost n false false) [1; 2; 3; 4; 5]%Z) None]))
    = false /\
  sent (react sampleClock
          (hooks (react sampleClock firstRender Mount
            [feedPage (map (fun n => samplePost n false false) [1; 2; 3; 4; 5]%Z) None]))
          EndReached
          [feedPage [samplePost 6 false false] None])
    = [].
Proof.
  pose proof (hasMore_after_successful_load sampleClock firstRender true firstRender
                (feedPage (map (fun n => samplePost n false false) [1; 2; 3; 4; 5]%Z) None)
                [] _ None eq_refl) as [_ H].
  specialize (H eq_refl). cbn in H.
  destruct H as [Hfalse Hnone]; [unfold LIMIT; lia | ].
  split; [reflexivity | split; [exact Hfalse | ]].
  exact (f_equal sent (Hnone [feedPage [samplePost 6 false false] None])).
Defined.



Lemma appends_fold clock replies :
  forall s,
    loading s = false ->
    loadingMore s = false ->
    requested (hasMore s) replies = true ->
    posts (session clock s (appendScript replies))
      = posts s ++ List.concat (map pagePosts replies) /\
    offset (session clock s (appendScript replies)) = offset s + list_sum (sizes replies).
Proof.
  induction replies as [ | reply rest IH]; intros s Hl Hlm Hreq.
  - cbn. rewrite app_nil_r, Nat.add_0_r. split; reflexivity.
  - cbn [requested] in Hreq.
    destruct (pageOf reply) as [[page hm] | ] eqn:Hpage; [ | discriminate].
    apply andb_prop in Hreq as [Hmore Hrest].
    cbn [appendScript map]. rewrite session_cons, react_EndReached.
    rewrite Hl, Hlm, Hmore. cbn [negb andb].
    rewrite (loadPosts_page _ _ _ _ _ _ _ _ _ Hpage).
    cbn [hooks].
    destruct (IH (mkFeed (posts s ++ page) false false false (moreAfter page hm) None
                         (offset s + List.length page)) eq_refl eq_refl Hrest)
      as [IHposts IHoffset].
    fold (appendScript rest). rewrite IHposts, IHoffset.
    assert (Hhere : pagePosts reply = page) by (unfold pagePosts; rewrite Hpage; reflexivity).
    change (sizes (reply :: rest)) with (List.length (pagePosts reply) :: sizes rest).
    cbn [posts offset map List.concat list_sum fold_right].
    fold (list_sum (sizes rest)).
    rewrite Hhere, <- app_assoc. split; [reflexivity | lia].
Qed.

Lemma reset_page clock s e reply page has_more inbox :
  e = Mount \/ e = PullToRefresh ->
  pageOf reply = Some (page, has_more) ->
  hooks (react clock s e (reply :: inbox))
  = mkFeed page false false false (moreAfter page has_more) None (List.length page).
Proof.
  intros [-> | ->] Hpage.
  - rewrite react_Mount, (loadPosts_page _ _ _ _ _ _ _ _ _ Hpage). reflexivity.
  - rewrite react_PullToRefresh, (loadPosts_page _ _ _ _ _ _ _ _ _ Hpage). reflexivity.
Qed.

Lemma length_concat_pages replies :
  List.length (List.concat (map pagePosts replies)) = list_sum (sizes replies).
Proof.
  induction replies as [ | reply rest IH]; [reflexivity | ].
  change (sizes (reply :: rest)) with (List.length (pagePosts reply) :: sizes rest).
  cbn [map List.concat list_sum fold_right]. fold (list_sum (sizes rest)).
  rewrite List.length_app, IH. reflexivity.
Qed.

(** C6: after a successful reset load the offset is the number of posts
    held; a successful append adds the number of posts of its page to the
    offset, and requests that page at the offset reached so far; so after
    a successful reset load and the successful appends that follow it,
    with pages of sizes k1..kN in all, the offset is k1+...+kN, the number
    of posts held, whatever [LIMIT] is. *)
Theorem offset_is_sum_of_page_sizes :
  forall clock,
    (forall view s reply inbox page has_more,
        pageOf reply = Some (page, has_more) ->
        offset (hooks (run clock (loadPosts view true) s (reply :: inbox) 0))
          = List.length (posts (hooks (run clock (loadPosts view true) s (reply :: inbox) 0)))) /\
    (forall s reply inbox page has_more,
        pageOf reply = Some (page, has_more) ->
        offset (hooks (run clock (loadPosts s false) s (reply :: inbox) 0))
          = offset s + List.length page /\
        sent (run clock (loadPosts s false) s (reply :: inbox) 0)
          = [feedRequest LIMIT (offset s)]) /\
    (forall s e first replies,
        e = Mount \/ e = PullToRefresh ->
        requested true (first :: replies) = true ->
        offset (session clock s ((e, [first]) :: appendScript replies))
          = list_sum (sizes (first :: replies)) /\
        offset (session clock s ((e, [first]) :: appendScript replies))
          = List.length (posts (session clock s ((e, [first]) :: appendScript replies)))).
Proof.
  intros clock. split; [ | split].
  - intros view s reply inbox page hm Hpage.
    rewrite (loadPosts_page _ _ _ _ _ _ _ _ _ Hpage). reflexivity.
  - intros s reply inbox page hm Hpage.
    rewrite (loadPosts_page _ _ _ _ _ _ _ _ _ Hpage). split; reflexivity.
  - intros s e first replies He Hreq.
    cbn [requested] in Hreq.
    destruct (pageOf first) as [[page hm] | ] eqn:Hpage; [ | discriminate].
    cbn [andb] in Hreq.
    rewrite session_cons, (reset_page _ _ _ _ _ _ _ He Hpage).
    destruct (appends_fold clock replies
                (mkFeed page false false false (moreAfter page hm) None (List.length page))
                eq_refl eq_refl Hreq) as [Hposts Hoffset].
    rewrite Hposts, Hoffset. cbn [posts offset].
    assert (Hhere : pagePosts first = page) by (unfold pagePosts; rewrite Hpage; reflexivity).
    change (sizes (first :: replies)) with (List.length (pagePosts first) :: sizes replies).
    cbn [list_sum fold_right]. fold (list_sum (sizes replies)).
    rewrite Hhere.
    split; [reflexivity | ].
    rewrite List.length_app, length_concat_pages. reflexivity.
Qed.

(** Pages of 1, 2 and 1 posts: the offset is 4, not three times 20. *)
Lemma offset_is_sum_witness :
  (Mount = Mount \/ Mount = PullToRefresh) /\
  requested true [feedPage [samplePost 1 false false] (Some true);
                  feedPage [samplePost 2 false false; samplePost 3 false false] (Some true);
                  feedPage [samplePost 4 false false] None] = true /\
  offset (session sampleClock firstRender
            ((Mount, [feedPage [samplePost 1 false false] (Some true)])
             :: appendScript
                  [feedPage [samplePost 2 false false; samplePost 3 false false] (Some true);
                   feedPage [samplePost 4 false false] None]))
    = 4.
Proof.
  split; [left; reflexivity | split; [reflexivity | ]].
  exact (proj1 (proj2 (proj2 (offset_is_sum_of_page_sizes sampleClock))
                  firstRender Mount (feedPage [samplePost 1 false false] (Some true))
                  [feedPage [samplePost 2 false false; samplePost 3 false false] (Some true);
                   feedPage [samplePost 4 false false] None]
                  (or_introl eq_refl) eq_refl)).
Defined.

(** C7: after a reset load and the appends that follow it, the held posts
    are the returned pages one after the other, in the order they were
    requested.  An end-of-list trigger, whatever its outcome, keeps the
    posts held before as a prefix; a feedback tap keeps every post in its
    place and changes flags only; a successful reset load (mount or
    refresh) replaces the whole sequence by the page it received. *)
Theorem held_posts_are_pages_in_order :
  forall clock,
    (forall s e first replies,
        e = Mount \/ e = PullToRefresh ->
        requested true (first :: replies) = true ->
        posts (session clock s ((e, [first]) :: appendScript replies))
          = List.concat (map pagePosts (first :: replies))) /\
    (forall s inbox,
        exists tail, posts (hooks (react clock s EndReached inbox)) = posts s ++ tail) /\
    (forall s e postId inbox,
        e = TapLike postId \/ e = TapDislike postId ->
        map stripFlags (posts (hooks (react clock s e inbox))) = map stripFlags (posts s)) /\
    (forall s e reply inbox page has_more,
        e = Mount \/ e = PullToRefresh ->
        pageOf reply = Some (page, has_more) ->
        posts (hooks (react clock s e (reply :: inbox))) = page).
Proof.
  intros clock. split; [ | split; [ | split]].
  - intros s e first replies He Hreq.
    cbn [requested] in Hreq.
    destruct (pageOf first) as [[page hm] | ] eqn:Hpage; [ | discriminate].
    cbn [andb] in Hreq.
    rewrite session_cons, (reset_page _ _ _ _ _ _ _ He Hpage).
    destruct (appends_fold clock replies
                (mkFeed page false false false (moreAfter page hm) None (List.length page))
                eq_refl eq_refl Hreq) as [Hposts _].
    assert (Hhere : pagePosts first = page) by (unfold pagePosts; rewrite Hpage; reflexivity).
    rewrite Hposts. cbn [posts map List.concat]. rewrite Hhere. reflexivity.
  - intros s inbox. rewrite react_EndReached.
    destruct (negb (loadingMore s) && hasMore s && negb (loading s));
      [ | exists []; cbn; rewrite app_nil_r; reflexivity].
    destruct inbox as [ | reply inbox].
    + rewrite loadPosts_pending. exists []. cbn. rewrite app_nil_r. reflexivity.
    + settle_load reply page hm.
      * exists page. reflexivity.
      * exists []. cbn. rewrite app_nil_r. reflexivity.
      * exists []. cbn. rewrite app_nil_r. reflexivity.
  - intros s e postId inbox He.
    destruct (tap_result clock s e inbox postId He) as [[_ ->] | (l & d & _ & ->)];
      [reflexivity | ].
    cbn. unfold onPost. rewrite map_map. apply map_ext.
    intros post. destruct (hasId postId post); reflexivity.
  - intros s e reply inbox page hm He Hpage. destruct He as [-> | ->].
    + rewrite react_Mount, (loadPosts_page _ _ _ _ _ _ _ _ _ Hpage). reflexivity.
    + rewrite react_PullToRefresh, (loadPosts_page _ _ _ _ _ _ _ _ _ Hpage). reflexivity.
Qed.

Lemma held_posts_in_order_witness :
  (PullToRefresh = Mount \/ PullToRefresh = PullToRefresh) /\
  requested true [feedPage [samplePost 1 false false] (Some true);
                  feedPage [samplePost 2 false false; samplePost 3 false false] None]
    = true /\
  posts (session sampleClock heldFeed
           ((PullToRefresh, [feedPage [samplePost 1 false false] (Some true)])
            :: appendScript
                 [feedPage [samplePost 2 false false; samplePost 3 false false] None]))
    = [samplePost 1 false false; samplePost 2 false false; samplePost 3 false false].
Proof.
  split; [right; reflexivity | split; [reflexivity | ]].
  exact (proj1 (held_posts_are_pages_in_order sampleClock)
               heldFeed PullToRefresh (feedPage [samplePost 1 false false] (Some true))
               [feedPage [samplePost 2 false false; samplePost 3 false false] None]
               (or_intror eq_refl) eq_refl).
Defined.

(** ** The transport helper *)

(** C9: [makeRequest] with no API key stored (none, or the empty string,
    or a store that fails) throws the missing-key error and sends
    nothing; with a key, a 401 response throws the invalid-key error, and
    every other response outside 200-299 throws the HTTP error that
    carries the status, which is neither of the two other errors; a 2xx
    response is returned. *)
Theorem makeRequest_errors :
  forall clock device endpoint options s,
    (ApiService.falsy (SecureStorage.getApiKey device) = true ->
     forall inbox,
       run clock (ApiService.makeRequest device endpoint options) s inbox 0
       = mkRun (Rejected (Error "API key not found. Please configure the app.")) s []) /\
    (ApiService.falsy (SecureStorage.getApiKey device) = false ->
     forall response inbox,
       List.length (sent (run clock (ApiService.makeRequest device endpoint options) s
                              (Responds response :: inbox) 0)) = 1 /\
       (status response = 401 ->
        settled (run clock (ApiService.makeRequest device endpoint options) s
                     (Responds response :: inbox) 0)
        = Rejected (Error "Invalid API key. Please reconfigure the app.")) /\
       (status response <> 401 ->
        ok response = false ->
        settled (run clock (ApiService.makeRequest device endpoint options) s
                     (Responds response :: inbox) 0)
        = Rejected (Error ("HTTP error! status: " ++ showNat (status response))%string) /\
        Error ("HTTP error! status: " ++ showNat (status response))%string
          <> Error "Invalid API key. Please reconfigure the app." /\
        Error ("HTTP error! status: " ++ showNat (status response))%string
          <> Error "API key not found. Please configure the app.") /\
       (ok response = true ->
        settled (run clock (ApiService.makeRequest device endpoint options) s
                     (Responds response :: inbox) 0)
        = Fulfilled response)).
Proof.
  intros clock device endpoint options s. unfold ApiService.makeRequest. split.
  - intros Hmissing inbox. rewrite Hmissing. reflexivity.
  - intros Hkey response inbox. rewrite Hkey. cbn.
    split; [ | split; [ | split]].
    + destruct (status response =? 401); [reflexivity | ].
      destruct (ok response); reflexivity.
    + intros H401. apply Nat.eqb_eq in H401. rewrite H401. reflexivity.
    + intros Hnot Hok. apply Nat.eqb_neq in Hnot. rewrite Hnot, Hok. cbn.
      split; [reflexivity | ].
      split; intros H; injection H as H; unfold String.append in H; discriminate.
    + intros Hok.
      assert (Hnot : (status response =? 401) = false).
      { apply Nat.eqb_neq. intros H401. unfold ok in Hok. rewrite H401 in Hok.
        discriminate. }
      rewrite Hnot, Hok. reflexivity.
Qed.

Lemma makeRequest_errors_witness :
  ApiService.falsy (SecureStorage.getApiKey (fun _ => SecureStorage.StoreHolds None)) = true /\
  run sampleClock
      (ApiService.makeRequest (fun _ => SecureStorage.StoreHolds None)
                              "/api/v1/mobile/stats" ApiService.noOptions)
      heldFeed [Responds (mkResponse 200 NotJson)] 0
    = mkRun (Rejected (Error "API key not found. Please configure the app.")) heldFeed [] /\
  ApiService.falsy (SecureStorage.getApiKey (fun _ => SecureStorage.StoreHolds (Some "k3y")))
    = false /\
  settled (run sampleClock
             (ApiService.makeRequest (fun _ => SecureStorage.StoreHolds (Some "k3y"))
                                     "/api/v1/mobile/stats" ApiService.noOptions)
             heldFeed [Responds (mkResponse 401 NotJson)] 0)
    = Rejected (Error "Invalid API key. Please reconfigure the app.") /\
  settled (run sampleClock
             (ApiService.makeRequest (fun _ => SecureStorage.StoreHolds (Some "k3y"))
                                     "/api/v1/mobile/stats" ApiService.noOptions)
             heldFeed [Responds (mkResponse 503 NotJson)] 0)
    = Rejected (Error "HTTP error! status: 503").
Proof.
  pose proof (makeRequest_errors sampleClock (fun _ => SecureStorage.StoreHolds None)
                "/api/v1/mobile/stats" ApiService.noOptions heldFeed) as [Hmissing _].
  pose proof (makeRequest_errors sampleClock (fun _ => SecureStorage.StoreHolds (Some "k3y"))
                "/api/v1/mobile/stats" ApiService.noOptions heldFeed) as [_ Hkey].
  split; [reflexivity | split; [exact (Hmissing eq_refl _) | split; [reflexivity | ]]].
  split.
  - destruct (Hkey eq_refl (mkResponse 401 NotJson) []) as (_ & H401 & _).
    exact (H401 eq_refl).
  - destruct (Hkey eq_refl (mkResponse 503 NotJson) []) as (_ & _ & Hhttp & _).
    destruct Hhttp as [H _]; [cbn; lia | reflexivity | exact H].
Defined.

(** ** More on loads: flags, errors and the guard of [handleLoadMore] *)

Lemma no_page_cases reply :
  pageOf reply = None -> lacksPosts reply = true \/ throwsIn reply = true.
Proof.
  intros H. destruct (reply_cases reply) as [(page & hm & Hp) | Hrest];
    [rewrite Hp in H; discriminate | exact Hrest].
Qed.

(** X1: a load that gets its reply always completes without throwing,
    whatever the reply: it has sent exactly one request (at offset 0 for a
    reset, at the render's offset for an append), the three loading flags
    are false afterwards, and the error is cleared exactly when the reply
    delivered a page. *)
Theorem settled_load_clears_flags :
  forall clock view reset s reply inbox tick,
    let r := run clock (loadPosts view reset) s (reply :: inbox) tick in
    settled r = Fulfilled tt /\
    sent r = [feedRequest LIMIT (if reset then 0 else offset view)] /\
    loading (hooks r) = false /\
    refreshing (hooks r) = false /\
    loadingMore (hooks r) = false /\
    (error (hooks r) = None <-> pageOf reply <> None).
Proof.
  intros clock view reset s reply inbox tick r. subst r.
  settle_load reply page hm; cbn; repeat split; try discriminate.
  - rewrite Hpage. discriminate.
  - intros H. exfalso. apply H. clear H.
    destruct reply as [cause | response]; [reflexivity | ].
    cbn in *. destruct (ok response); [ | reflexivity].
    destruct (payload response) as [ | | [page | ] hm]; try reflexivity; discriminate.
  - intros H. exfalso. apply H. clear H.
    destruct reply as [cause | response]; [reflexivity | ].
    cbn in *. destruct (ok response); [ | reflexivity].
    destruct (payload response) as [ | | [page | ] hm]; try reflexivity; discriminate.
Qed.

(** X2: a load whose reply delivers no page (the request fails, the
    status is not 2xx, the body is not an object or has no posts) stops
    pagination: [hasMore] is false and an error is set, a failed append
    leaves the held posts and the offset as they were, and the next
    end-of-list trigger sends nothing and changes nothing. *)
Theorem load_without_page_stops_pagination :
  forall clock view reset s reply inbox,
    pageOf reply = None ->
    let s' := hooks (run clock (loadPosts view reset) s (reply :: inbox) 0) in
    hasMore s' = false /\
    error s' <> None /\
    (reset = false -> posts s' = posts s /\ offset s' = offset s) /\
    (forall later, react clock s' EndReached later = mkRun (Fulfilled tt) s' []).
Proof.
  intros clock view reset s reply inbox Hnone s'. subst s'.
  destruct (no_page_cases reply Hnone) as [H | H];
    [rewrite (loadPosts_nodata _ _ _ _ _ _ _ H) | rewrite (loadPosts_throws _ _ _ _ _ _ _ H)];
    cbn [hooks hasMore error posts offset];
    (split; [reflexivity | split; [discriminate | split]]);
    try (intros ->; split; reflexivity);
    intros later; rewrite react_EndReached; reflexivity.
Qed.

Lemma load_without_page_witness :
  pageOf (Responds (mkResponse 500 NotJson)) = None /\
  posts (hooks (run sampleClock (loadPosts heldFeed false) heldFeed
                    [Responds (mkResponse 500 NotJson)] 0)) = posts heldFeed /\
  hasMore (hooks (run sampleClock (loadPosts heldFeed false) heldFeed
                      [Responds (mkResponse 500 NotJson)] 0)) = false.
Proof.
  destruct (load_without_page_stops_pagination sampleClock heldFeed false heldFeed
              (Responds (mkResponse 500 NotJson)) [] eq_refl)
    as (Hmore & _ & Hkeep & _).
  split; [reflexivity | split; [exact (proj1 (Hkeep eq_refl)) | exact Hmore]].
Defined.

Lemma load_keeps_cursor clock view (reset : bool) s inbox :
  (reset = false -> offset s = List.length (posts s)) ->
  (reset = false -> loading s = false /\ hasMore s = true) ->
  cursorInSync (hooks (run clock (loadPosts view reset) s inbox 0)).
Proof.
  intros Hsync Hidle. unfold cursorInSync.
  destruct inbox as [ | reply inbox].
  - rewrite loadPosts_pending. cbn. destruct reset; [discriminate | ].
    intros _ _. apply Hsync. reflexivity.
  - settle_load reply page hm; cbn; try discriminate.
    intros _ _. destruct reset; [reflexivity | ].
    rewrite List.length_app, Hsync by reflexivity. reflexivity.
Qed.

Lemma onPost_length postId f l : List.length (onPost postId f l) = List.length l.
Proof. unfold onPost. apply List.length_map. Qed.

Lemma react_keeps_cursor clock s e inbox :
  cursorInSync s -> cursorInSync (hooks (react clock s e inbox)).
Proof.
  intros Hs. destruct e as [ | | | postId | postId].
  - rewrite react_Mount. apply load_keeps_cursor; discriminate.
  - rewrite react_PullToRefresh. apply load_keeps_cursor; discriminate.
  - rewrite react_EndReached.
    destruct (negb (loadingMore s) && hasMore s && negb (loading s)) eqn:Hguard;
      [ | exact Hs].
    apply andb_prop in Hguard as [Hguard Hloading].
    apply andb_prop in Hguard as [_ Hmore].
    apply negb_true_iff in Hloading.
    apply load_keeps_cursor; intros _; [apply Hs; assumption | split; assumption].
  - destruct (tap_result clock s (TapLike postId) inbox postId) as [[_ ->] | (l & d & _ & ->)];
      [left; reflexivity | exact Hs | ].
    unfold cursorInSync in *. cbn. rewrite onPost_length. exact Hs.
  - destruct (tap_result clock s (TapDislike postId) inbox postId) as [[_ ->] | (l & d & _ & ->)];
      [right; reflexivity | exact Hs | ].
    unfold cursorInSync in *. cbn. rewrite onPost_length. exact Hs.
Qed.

Lemma session_keeps_cursor clock script :
  forall s, cursorInSync s -> cursorInSync (session clock s script).
Proof.
  induction script as [ | [e inbox] rest IH]; intros s Hs; [exact Hs | ].
  rewrite session_cons. apply IH, react_keeps_cursor, Hs.
Qed.

(** X3: in every session of the screen (any events, any replies, loads
    left pending included), whenever no reset load is in flight and
    [hasMore] is true the offset equals the number of posts held; so every
    request an end-of-list trigger sends asks for the page that starts
    right after the posts held. *)
Theorem append_asks_for_what_follows_the_held_posts :
  forall clock script inbox,
    cursorInSync (session clock firstRender script) /\
    (sent (react clock (session clock firstRender script) EndReached inbox) = [] \/
     sent (react clock (session clock firstRender script) EndReached inbox)
       = [feedRequest LIMIT (List.length (posts (session clock firstRender script)))]).
Proof.
  intros clock script inbox.
  assert (Hsync : cursorInSync (session clock firstRender script)).
  { apply session_keeps_cursor. unfold cursorInSync. cbn. discriminate. }
  split; [exact Hsync | ].
  rewrite react_EndReached.
  destruct (negb (loadingMore _) && hasMore _ && negb (loading _)) eqn:Hguard;
    [right | left; reflexivity].
  apply andb_prop in Hguard as [Hguard Hloading].
  apply andb_prop in Hguard as [_ Hmore].
  apply negb_true_iff in Hloading.
  rewrite <- (Hsync Hloading Hmore).
  destruct inbox as [ | reply inbox]; [rewrite loadPosts_pending; reflexivity | ].
  settle_load reply page hm; reflexivity.
Qed.

Lemma load_keeps_quiet clock view (reset : bool) s inbox :
  quietWhilePaging (hooks (run clock (loadPosts view reset) s inbox 0)).
Proof.
  unfold quietWhilePaging. destruct inbox as [ | reply inbox].
  - rewrite loadPosts_pending. reflexivity.
  - settle_load reply page hm; cbn; [reflexivity | discriminate | discriminate].
Qed.

Lemma react_keeps_quiet clock s e inbox :
  quietWhilePaging s -> quietWhilePaging (hooks (react clock s e inbox)).
Proof.
  intros Hs. destruct e as [ | | | postId | postId].
  - rewrite react_Mount. apply load_keeps_quiet.
  - rewrite react_PullToRefresh. apply load_keeps_quiet.
  - rewrite react_EndReached.
    destruct (negb (loadingMore s) && hasMore s && negb (loading s)); [ | exact Hs].
    apply load_keeps_quiet.
  - destruct (tap_result clock s (TapLike postId) inbox postId) as [[_ ->] | (l & d & _ & ->)];
      [left; reflexivity | exact Hs | exact Hs].
  - destruct (tap_result clock s (TapDislike postId) inbox postId) as [[_ ->] | (l & d & _ & ->)];
      [right; reflexivity | exact Hs | exact Hs].
Qed.

Lemma session_keeps_quiet clock script :
  forall s, quietWhilePaging s -> quietWhilePaging (session clock s script).
Proof.
  induction script as [ | [e inbox] rest IH]; intros s Hs; [exact Hs | ].
  rewrite session_cons. apply IH, react_keeps_quiet, Hs.
Qed.

(** X4: in every session of the screen, an error is showing only while
    pagination is stopped: whenever [error] is set, [hasMore] is false, so
    no end-of-list trigger sends a request until a reset load is made. *)
Theorem error_showing_means_pagination_stopped :
  forall clock script,
    error (session clock firstRender script) <> None ->
    hasMore (session clock firstRender script) = false /\
    forall inbox,
      react clock (session clock firstRender script) EndReached inbox
      = mkRun (Fulfilled tt) (session clock firstRender script) [].
Proof.
  intros clock script Herr.
  pose proof (session_keeps_quiet clock script firstRender (fun _ => eq_refl)) as Hquiet.
  assert (Hmore : hasMore (session clock firstRender script) = false).
  { destruct (hasMore (session clock firstRender script)) eqn:H; [ | reflexivity].
    exfalso. apply Herr, Hquiet, H. }
  split; [exact Hmore | ].
  intros inbox. rewrite react_EndReached, Hmore, andb_false_r. reflexivity.
Qed.

Lemma error_showing_witness :
  error (session sampleClock firstRender [(Mount, [Rejects TypeError])]) <> None /\
  hasMore (session sampleClock firstRender [(Mount, [Rejects TypeError])]) = false.
Proof.
  assert (H : error (session sampleClock firstRender [(Mount, [Rejects TypeError])]) <> None)
    by (cbn; discriminate).
  split; [exact H | ].
  exact (proj1 (error_showing_means_pagination_stopped sampleClock
                  [(Mount, [Rejects TypeError])] H)).
Defined.

(** X5: the guard of [handleLoadMore] reads the loading flags, not the
    requests in flight.  An end-of-list trigger that comes right after a
    load has started (first load, refresh or append, nothing else handled
    in between) sends no request and changes nothing.  Pull-to-refresh
    has no guard: a second refresh right after a first sends a second
    request for the first page.  And once that second refresh has got a
    page that signals more, an end-of-list trigger does send a request,
    at the offset of that page's length, although the first refresh is
    still unanswered. *)
Theorem append_guard_reads_the_loading_flags :
  forall clock s inbox,
    react clock (hooks (react clock s Mount [])) EndReached inbox
      = mkRun (Fulfilled tt) (hooks (react clock s Mount [])) [] /\
    react clock (hooks (react clock s PullToRefresh [])) EndReached inbox
      = mkRun (Fulfilled tt) (hooks (react clock s PullToRefresh [])) [] /\
    react clock (hooks (react clock s EndReached [])) EndReached inbox
      = mkRun (Fulfilled tt) (hooks (react clock s EndReached [])) [] /\
    sent (react clock (hooks (react clock s PullToRefresh [])) PullToRefresh [])
      = [feedRequest LIMIT 0] /\
    (forall reply page has_more,
        pageOf reply = Some (page, has_more) ->
        moreAfter page has_more = true ->
        sent (react clock
                (session clock s [(PullToRefresh, []); (PullToRefresh, [reply])])
                EndReached inbox)
          = [feedRequest LIMIT (List.length page)]).
Proof.
  intros clock s inbox. split; [ | split; [ | split; [ | split]]].
  - rewrite react_Mount, loadPosts_pending, react_EndReached. cbn.
    rewrite andb_false_r. reflexivity.
  - rewrite react_PullToRefresh, loadPosts_pending, react_EndReached. cbn.
    rewrite andb_false_r. reflexivity.
  - rewrite (react_EndReached clock s []).
    destruct (negb (loadingMore s) && hasMore s && negb (loading s)) eqn:Hguard.
    + rewrite loadPosts_pending, react_EndReached. reflexivity.
    + rewrite react_EndReached. cbn [hooks]. rewrite Hguard. reflexivity.
  - rewrite !react_PullToRefresh, !loadPosts_pending. reflexivity.
  - intros reply page hm Hpage Hmore.
    rewrite !session_cons. cbn [session fold_left].
    rewrite (reset_page _ _ _ _ _ _ _ (or_intror eq_refl) Hpage).
    rewrite react_EndReached. cbn [loadingMore hasMore loading negb andb].
    rewrite Hmore. cbn [negb andb].
    destruct inbox as [ | later inbox]; [rewrite loadPosts_pending; reflexivity | ].
    settle_load later page' hm'; reflexivity.
Qed.

Lemma append_guard_witness :
  pageOf (feedPage [samplePost 9 false false] (Some true))
    = Some ([samplePost 9 false false], Some true) /\
  moreAfter [samplePost 9 false false] (Some true) = true /\
  sent (react sampleClock
          (session sampleClock heldFeed
             [(PullToRefresh, []);
              (PullToRefresh, [feedPage [samplePost 9 false false] (Some true)])])
          EndReached [])
    = [feedRequest LIMIT 1].
Proof.
  split; [reflexivity | split; [reflexivity | ]].
  destruct (append_guard_reads_the_loading_flags sampleClock heldFeed [])
    as (_ & _ & _ & _ & Hlate).
  exact (Hlate (feedPage [samplePost 9 false false] (Some true))
               [samplePost 9 false false] (Some true) eq_refl eq_refl).
Defined.

(** X6: a successful refresh resumes pagination wherever the screen
    stood (pagination stopped, an error showing): when its page signals
    more, the next end-of-list trigger requests the page at the offset
    that is the length of the refreshed page. *)
Theorem refresh_resumes_pagination :
  forall clock s reply inbox page has_more,
    pageOf reply = Some (page, has_more) ->
    moreAfter page has_more = true ->
    error (hooks (react clock s PullToRefresh (reply :: inbox))) = None /\
    sent (react clock (hooks (react clock s PullToRefresh (reply :: inbox))) EndReached [])
      = [feedRequest LIMIT (List.length page)].
Proof.
  intros clock s reply inbox page hm Hpage Hmore.
  rewrite (reset_page _ _ _ _ _ _ _ (or_intror eq_refl) Hpage).
  split; [reflexivity | ].
  rewrite react_EndReached. cbn [loadingMore hasMore loading negb andb].
  rewrite Hmore. cbn [negb andb].
  rewrite loadPosts_pending. reflexivity.
Qed.

Lemma refresh_resumes_witness :
  pageOf (feedPage [samplePost 9 false false] (Some true))
    = Some ([samplePost 9 false false], Some true) /\
  moreAfter [samplePost 9 false false] (Some true) = true /\
  sent (react sampleClock
          (hooks (react sampleClock
                    (session sampleClock firstRender [(Mount, [Rejects TypeError])])
                    PullToRefresh [feedPage [samplePost 9 false false] (Some true)]))
          EndReached [])
    = [feedRequest LIMIT 1].
Proof.
  split; [reflexivity | split; [reflexivity | ]].
  exact (proj2 (refresh_resumes_pagination sampleClock
                  (session sampleClock firstRender [(Mount, [Rejects TypeError])])
                  (feedPage [samplePost 9 false false] (Some true)) []
                  [samplePost 9 false false] (Some true) eq_refl eq_refl)).
Defined.

(** ** More on feedback taps *)

Lemma find_absent postId posts0 :
  ~ In postId (ids posts0) -> find (hasId postId) posts0 = None.
Proof.
  induction posts0 as [ | a rest IH]; cbn; [reflexivity | ].
  intros Hnot. destruct (hasId postId a) eqn:Ha.
  - exfalso. apply Hnot. left. unfold hasId in Ha. apply Z.eqb_eq in Ha. exact Ha.
  - apply IH. intros Hin. apply Hnot. right. exact Hin.
Qed.

Lemma onPost_onPost_flags postId l d l' d' posts0 :
  onPost postId (fun post => withFlags post l' d')
         (onPost postId (fun post => withFlags post l d) posts0)
  = onPost postId (fun post => withFlags post l' d') posts0.
Proof.
  unfold onPost. rewrite map_map. apply map_ext. intros post.
  destruct (hasId postId post) eqn:H.
  - unfold hasId in *. cbn. rewrite H. reflexivity.
  - rewrite H. reflexivity.
Qed.

(** X7: a like or dislike tap for an identity that is not held does
    nothing: no request is sent, the handler returns, and the hooks are
    untouched. *)
Theorem tap_on_unknown_post_is_a_no_op :
  forall clock s e postId inbox,
    e = TapLike postId \/ e = TapDislike postId ->
    ~ In postId (ids (posts s)) ->
    react clock s e inbox = mkRun (Fulfilled tt) s [].
Proof.
  intros clock s e postId inbox He Hnot.
  apply find_absent in Hnot.
  destruct He as [-> | ->]; unfold react, dispatch;
    [rewrite handleLike_run | rewrite handleDislike_run]; rewrite Hnot; reflexivity.
Qed.

Lemma tap_on_unknown_post_witness :
  (TapLike 99 = TapLike 99 \/ TapLike 99 = TapDislike 99) /\
  ~ In 99%Z (ids (posts heldFeed)) /\
  react sampleClock heldFeed (TapLike 99) [Rejects TypeError]
    = mkRun (Fulfilled tt) heldFeed [].
Proof.
  assert (H : ~ In 99%Z (ids (posts heldFeed))) by (cbn; intuition discriminate).
  split; [left; reflexivity | split; [exact H | ]].
  exact (tap_on_unknown_post_is_a_no_op sampleClock heldFeed (TapLike 99) 99
           [Rejects TypeError] (or_introl eq_refl) H).
Defined.

(** X8: a tap on a held post sends exactly one PUT, to the feedback
    endpoint of that post, whose body carries the new value of the tapped
    flag and false for the other flag; whatever the reply, the handler
    completes without throwing. *)
Theorem tap_sends_one_feedback_request :
  forall clock s postId currentPost inbox,
    find (hasId postId) (posts s) = Some currentPost ->
    sent (react clock s (TapLike postId) inbox)
      = [mkRequest (API_CONFIG.BASE_URL ++ API_CONFIG.ENDPOINTS.MOBILE_POST_FEEDBACK postId)%string
                   PUT
                   [("Content-Type", "application/json");
                    ("X-API-Key", API_CONFIG.API_KEY)]
                   (Some [("like_status", negb (like_status currentPost));
                          ("dislike_status", false)])] /\
    sent (react clock s (TapDislike postId) inbox)
      = [mkRequest (API_CONFIG.BASE_URL ++ API_CONFIG.ENDPOINTS.MOBILE_POST_FEEDBACK postId)%string
                   PUT
                   [("Content-Type", "application/json");
                    ("X-API-Key", API_CONFIG.API_KEY)]
                   (Some [("dislike_status", negb (dislike_status currentPost));
                          ("like_status", false)])] /\
    (inbox <> [] ->
     settled (react clock s (TapLike postId) inbox) = Fulfilled tt /\
     settled (react clock s (TapDislike postId) inbox) = Fulfilled tt).
Proof.
  intros clock s postId cur inbox Hfind. unfold react, dispatch.
  rewrite handleLike_run, handleDislike_run, Hfind.
  destruct inbox as [ | reply inbox]; cbn.
  - split; [reflexivity | split; [reflexivity | ]].
    intros Hnonempty. exfalso. apply Hnonempty. reflexivity.
  - split; [reflexivity | split; [reflexivity | ]].
    intros _. split; reflexivity.
Qed.

Lemma tap_sends_one_request_witness :
  find (hasId 7) (posts heldFeed) = Some (samplePost 7 false false) /\
  List.length (sent (react sampleClock heldFeed (TapLike 7) [Rejects TypeError])) = 1 /\
  settled (react sampleClock heldFeed (TapDislike 7) [Rejects TypeError]) = Fulfilled tt.
Proof.
  destruct (tap_sends_one_feedback_request sampleClock heldFeed 7 (samplePost 7 false false)
              [Rejects TypeError] eq_refl) as (Hlike & _ & Hsettled).
  split; [reflexivity | split].
  - rewrite Hlike. reflexivity.
  - apply Hsettled. discriminate.
Defined.

Lemma successful_tap_posts clock s postId cur reply :
  find (hasId postId) (posts s) = Some cur ->
  putFails reply = false ->
  hooks (react clock s (TapLike postId) [reply])
    = setPosts (onPost postId (fun post => withFlags post (negb (like_status cur)) false)
                       (posts s)) s /\
  hooks (react clock s (TapDislike postId) [reply])
    = setPosts (onPost postId (fun post => withFlags post false (negb (dislike_status cur)))
                       (posts s)) s.
Proof.
  intros Hfind Hok. unfold react, dispatch.
  rewrite handleLike_run, handleDislike_run, Hfind, Hok. split; reflexivity.
Qed.

(** X9: taps compose as toggles that clear the other flag.  For a held
    post and requests that succeed: like twice leaves like as it was and
    dislike false; like then dislike leaves the post disliked and not
    liked; dislike then like leaves it liked and not disliked. *)
Theorem successive_taps_toggle :
  forall clock s postId currentPost r1 r2,
    find (hasId postId) (posts s) = Some currentPost ->
    putFails r1 = false ->
    putFails r2 = false ->
    posts (session clock s [(TapLike postId, [r1]); (TapLike postId, [r2])])
      = onPost postId (fun post => withFlags post (like_status currentPost) false) (posts s) /\
    posts (session clock s [(TapLike postId, [r1]); (TapDislike postId, [r2])])
      = onPost postId (fun post => withFlags post false true) (posts s) /\
    posts (session clock s [(TapDislike postId, [r1]); (TapLike postId, [r2])])
      = onPost postId (fun post => withFlags post true false) (posts s).
Proof.
  intros clock s postId cur r1 r2 Hfind H1 H2.
  destruct (successful_tap_posts clock s postId cur r1 Hfind H1) as [Hlike Hdislike].
  rewrite !session_cons. cbn [session fold_left].
  rewrite Hlike, Hdislike.
  pose proof (find_onPost postId (negb (like_status cur)) false _ _ Hfind) as Hl.
  pose proof (find_onPost postId false (negb (dislike_status cur)) _ _ Hfind) as Hd.
  destruct (successful_tap_posts clock
              (setPosts (onPost postId (fun post => withFlags post (negb (like_status cur)) false)
                                (posts s)) s)
              postId _ r2 Hl H2) as [Hll Hld].
  destruct (successful_tap_posts clock
              (setPosts (onPost postId (fun post => withFlags post false (negb (dislike_status cur)))
                                (posts s)) s)
              postId _ r2 Hd H2) as [Hdl _].
  rewrite Hll, Hld, Hdl. cbn [posts setPosts updPosts withFlags like_status dislike_status].
  rewrite !onPost_onPost_flags, negb_involutive. repeat split.
Qed.

Lemma successive_taps_witness :
  find (hasId 8) (posts heldFeed) = Some (samplePost 8 true false) /\
  putFails (Responds (mkResponse 200 JsonNull)) = false /\
  posts (session sampleClock heldFeed
           [(TapLike 8, [Responds (mkResponse 200 JsonNull)]);
            (TapDislike 8, [Responds (mkResponse 200 JsonNull)])])
    = [samplePost 7 false false; samplePost 8 false true].
Proof.
  split; [reflexivity | split; [reflexivity | ]].
  exact (proj1 (proj2 (successive_taps_toggle sampleClock heldFeed 8 (samplePost 8 true false)
                         (Responds (mkResponse 200 JsonNull))
                         (Responds (mkResponse 200 JsonNull))
                         eq_refl eq_refl eq_refl))).
Defined.

(** X10: a tap, whatever its outcome, changes nothing but the feedback
    flags of the tapped identity: the offset, [hasMore], the error and the
    loading flags stay, and every post with another identity is held
    unchanged at its place. *)
Theorem tap_touches_only_the_tapped_post :
  forall clock s e postId inbox,
    e = TapLike postId \/ e = TapDislike postId ->
    hooks (react clock s e inbox) = setPosts (posts (hooks (react clock s e inbox))) s /\
    List.length (posts (hooks (react clock s e inbox))) = List.length (posts s) /\
    (forall i post,
        nth_error (posts s) i = Some post ->
        post_id post <> postId ->
        nth_error (posts (hooks (react clock s e inbox))) i = Some post).
Proof.
  intros clock s e postId inbox He.
  destruct (tap_result clock s e inbox postId He) as [[_ ->] | (l & d & _ & ->)].
  - repeat split; [destruct s; reflexivity | auto].
  - cbn. rewrite onPost_length. repeat split.
    intros i post Hnth Hid. unfold onPost. rewrite nth_error_map, Hnth. cbn.
    assert (Hno : hasId postId post = false)
      by (unfold hasId; apply Z.eqb_neq; exact Hid).
    rewrite Hno. reflexivity.
Qed.

Lemma tap_touches_only_witness :
  (TapLike 7 = TapLike 7 \/ TapLike 7 = TapDislike 7) /\
  offset (hooks (react sampleClock heldFeed (TapLike 7) [])) = 2 /\
  nth_error (posts (hooks (react sampleClock heldFeed (TapLike 7) []))) 1
    = Some (samplePost 8 true false).
Proof.
  destruct (tap_touches_only_the_tapped_post sampleClock heldFeed (TapLike 7) 7 []
              (or_introl eq_refl)) as (Hhooks & _ & Hothers).
  split; [left; reflexivity | split].
  - rewrite Hhooks. reflexivity.
  - apply Hothers; [reflexivity | cbn; discriminate].
Defined.

(** ** More on the transport helper and the key store *)

Lemma hasApiKey_falsy device :
  SecureStorage.hasApiKey device = negb (ApiService.falsy (SecureStorage.getApiKey device)).
Proof.
  unfold SecureStorage.hasApiKey, ApiService.falsy.
  destruct (SecureStorage.getApiKey device) as [key | ]; [ | reflexivity].
  destruct (String.length key); reflexivity.
Qed.

Lemma makeRequest_run clock device endpoint options s inbox tick :
  run clock (ApiService.makeRequest device endpoint options) s inbox tick =
  if ApiService.falsy (SecureStorage.getApiKey device)
  then mkRun (Rejected (Error "API key not found. Please configure the app.")) s []
  else
    let request :=
      mkRequest (API_CONFIG.BASE_URL ++ endpoint)%string
                (match ApiService.opt_method options with Some m => m | None => GET end)
                (ApiService.spread
                   [("Content-Type", "application/json");
                    ("X-API-Key",
                     match SecureStorage.getApiKey device with Some key => key | None => "" end)]
                   (ApiService.opt_headers options))
                (ApiService.opt_body options) in
    match inbox with
    | [] => mkRun Pending s [request]
    | Rejects cause :: _ => mkRun (Rejected cause) s [request]
    | Responds response :: _ =>
        mkRun (if status response =? 401
               then Rejected (Error "Invalid API key. Please reconfigure the app.")
               else if negb (ok response)
               then Rejected (Error ("HTTP error! status: " ++ showNat (status response))%string)
               else Fulfilled response)
              s [request]
    end.
Proof.
  unfold ApiService.makeRequest.
  destruct (ApiService.falsy (SecureStorage.getApiKey device)); [reflexivity | ].
  destruct inbox as [ | [cause | response] inbox]; cbn; try reflexivity.
  destruct (status response =? 401); [reflexivity | ].
  destruct (ok response); reflexivity.
Qed.

(** A service call: [makeRequest], then [response.json()]. *)
Lemma service_run clock device endpoint options s inbox tick :
  run clock (bind (ApiService.makeRequest device endpoint options) parseJson) s inbox tick =
  if ApiService.falsy (SecureStorage.getApiKey device)
  then mkRun (Rejected (Error "API key not found. Please configure the app.")) s []
  else
    let request :=
      mkRequest (API_CONFIG.BASE_URL ++ endpoint)%string
                (match ApiService.opt_method options with Some m => m | None => GET end)
                (ApiService.spread
                   [("Content-Type", "application/json");
                    ("X-API-Key",
                     match SecureStorage.getApiKey device with Some key => key | None => "" end)]
                   (ApiService.opt_headers options))
                (ApiService.opt_body options) in
    match inbox with
    | [] => mkRun Pending s [request]
    | Rejects cause :: _ => mkRun (Rejected cause) s [request]
    | Responds response :: _ =>
        mkRun (if status response =? 401
               then Rejected (Error "Invalid API key. Please reconfigure the app.")
               else if negb (ok response)
               then Rejected (Error ("HTTP error! status: " ++ showNat (status response))%string)
               else match payload response with
                    | NotJson => Rejected SyntaxError
                    | parsed => Fulfilled parsed
                    end)
              s [request]
    end.
Proof.
  unfold ApiService.makeRequest.
  destruct (ApiService.falsy (SecureStorage.getApiKey device)); [reflexivity | ].
  destruct inbox as [ | [cause | response] inbox]; cbn; try reflexivity.
  destruct (status response =? 401); [reflexivity | ].
  destruct (ok response); cbn; [ | reflexivity].
  unfold parseJson. destruct (payload response); reflexivity.
Qed.

(** X11: [makeRequest] makes one attempt and touches no state of the
    screen: it sends at most one request whatever replies are at hand,
    leaves the hooks as they are, and, when [fetch] rejects, rejects with
    the very cause [fetch] gave. *)
Theorem makeRequest_is_one_attempt :
  forall clock device endpoint options s inbox,
    hooks (run clock (ApiService.makeRequest device endpoint options) s inbox 0) = s /\
    List.length (sent (run clock (ApiService.makeRequest device endpoint options) s inbox 0))
      <= 1 /\
    (forall cause rest,
        inbox = Rejects cause :: rest ->
        SecureStorage.hasApiKey device = true ->
        settled (run clock (ApiService.makeRequest device endpoint options) s inbox 0)
          = Rejected cause).
Proof.
  intros clock device endpoint options s inbox. rewrite makeRequest_run.
  destruct (ApiService.falsy (SecureStorage.getApiKey device)) eqn:Hfalsy.
  - repeat split; [cbn; lia | ].
    intros cause rest _ Hhas. rewrite hasApiKey_falsy, Hfalsy in Hhas. discriminate.
  - destruct inbox as [ | [cause | response] inbox]; cbn;
      (split; [reflexivity | split; [lia | ]]); intros cause' rest Heq _;
      try discriminate.
    injection Heq as -> _. reflexivity.
Qed.

Lemma makeRequest_one_attempt_witness :
  SecureStorage.hasApiKey (fun _ => SecureStorage.StoreHolds (Some "k3y")) = true /\
  settled (run sampleClock
             (ApiService.makeRequest (fun _ => SecureStorage.StoreHolds (Some "k3y"))
                                     "/api/v1/mobile/stats" ApiService.noOptions)
             heldFeed [Rejects TypeError; Responds (mkResponse 200 JsonNull)] 0)
    = Rejected TypeError.
Proof.
  split; [reflexivity | ].
  exact (proj2 (proj2 (makeRequest_is_one_attempt sampleClock
                         (fun _ => SecureStorage.StoreHolds (Some "k3y"))
                         "/api/v1/mobile/stats" ApiService.noOptions heldFeed
                         [Rejects TypeError; Responds (mkResponse 200 JsonNull)]))
               TypeError [Responds (mkResponse 200 JsonNull)] eq_refl eq_refl).
Defined.

(** X12: [makeRequest] sends a request exactly when [hasApiKey] answers
    true: with no key stored, an empty key, or a store that fails, nothing
    is sent and the missing-key error is thrown; otherwise one request
    goes out. *)
Theorem makeRequest_sends_iff_hasApiKey :
  forall clock device endpoint options s inbox,
    (SecureStorage.hasApiKey device = false <->
     sent (run clock (ApiService.makeRequest device endpoint options) s inbox 0) = []) /\
    (SecureStorage.hasApiKey device = false ->
     settled (run clock (ApiService.makeRequest device endpoint options) s inbox 0)
       = Rejected (Error "API key not found. Please configure the app.")) /\
    (SecureStorage.hasApiKey device = true ->
     List.length (sent (run clock (ApiService.makeRequest device endpoint options) s inbox 0))
       = 1).
Proof.
  intros clock device endpoint options s inbox.
  rewrite makeRequest_run, hasApiKey_falsy.
  destruct (ApiService.falsy (SecureStorage.getApiKey device)); cbn.
  - repeat split; try reflexivity; discriminate.
  - destruct inbox as [ | [cause | response] inbox]; cbn;
      repeat split; try reflexivity; discriminate.
Qed.

Lemma makeRequest_sends_iff_witness :
  SecureStorage.hasApiKey (fun _ => SecureStorage.StoreFails TypeError) = false /\
  sent (run sampleClock
          (ApiService.makeRequest (fun _ => SecureStorage.StoreFails TypeError)
                                  "/api/v1/mobile/stats" ApiService.noOptions)
          heldFeed [Responds (mkResponse 200 JsonNull)] 0) = [].
Proof.
  split; [reflexivity | ].
  apply (proj1 (makeRequest_sends_iff_hasApiKey sampleClock
                  (fun _ => SecureStorage.StoreFails TypeError)
                  "/api/v1/mobile/stats" ApiService.noOptions heldFeed
                  [Responds (mkResponse 200 JsonNull)])).
  reflexivity.
Defined.

Lemma getProp_assign obj k v key :
  getProp (ApiService.assign obj (k, v)) key
  = if String.eqb k key then Some v else getProp obj key.
Proof.
  induction obj as [ | [k0 v0] rest IH]; cbn; [reflexivity | ].
  destruct (String.eqb k0 k) eqn:Hk0; cbn.
  - apply String.eqb_eq in Hk0. subst k0.
    destruct (String.eqb k key); reflexivity.
  - rewrite IH. destruct (String.eqb k0 key) eqn:Hkey; [ | reflexivity].
    apply String.eqb_eq in Hkey. subst key. rewrite String.eqb_sym, Hk0. reflexivity.
Qed.

Lemma getProp_app a b key :
  getProp (a ++ b) key
  = match getProp a key with Some v => Some v | None => getProp b key end.
Proof.
  induction a as [ | [k v] rest IH]; cbn; [reflexivity | ].
  destruct (String.eqb k key); [reflexivity | exact IH].
Qed.

(** [{ ...base, ...extra }[key]]: the last [key] of [extra] if it has
    one, else that of [base]. *)
Lemma getProp_spread extra :
  forall base key,
    getProp (ApiService.spread base extra) key
    = match getProp (rev extra) key with
      | Some v => Some v
      | None => getProp base key
      end.
Proof.
  unfold ApiService.spread.
  induction extra as [ | [k v] rest IH]; intros base key; cbn; [reflexivity | ].
  rewrite IH, getProp_app, getProp_assign. cbn.
  destruct (getProp (rev rest) key); [reflexivity | ].
  destruct (String.eqb k key); reflexivity.
Qed.

Lemma nonempty_key_not_falsy key : key <> "" -> ApiService.falsy (Some key) = false.
Proof.
  intros H. cbn. destruct key; [exfalso; apply H; reflexivity | reflexivity].
Qed.

(** X13: with a non-empty key stored, the one request [makeRequest]
    sends goes to [BASE_URL] followed by the endpoint, with the method
    and body of the options (GET when no method is given); its X-API-Key
    header is the stored key and its Content-Type is application/json,
    unless the caller's own headers name them: a caller-supplied header
    replaces the default, the stored key included. *)
Theorem makeRequest_headers :
  forall clock device key endpoint options s inbox,
    SecureStorage.getApiKey device = Some key ->
    key <> "" ->
    exists request,
      sent (run clock (ApiService.makeRequest device endpoint options) s inbox 0) = [request] /\
      url request = (API_CONFIG.BASE_URL ++ endpoint)%string /\
      method request
        = match ApiService.opt_method options with Some m => m | None => GET end /\
      body request = ApiService.opt_body options /\
      getProp (headers request) "X-API-Key"
        = Some match getProp (rev (ApiService.opt_headers options)) "X-API-Key" with
               | Some given => given
               | None => key
               end /\
      getProp (headers request) "Content-Type"
        = Some match getProp (rev (ApiService.opt_headers options)) "Content-Type" with
               | Some given => given
               | None => "application/json"
               end.
Proof.
  intros clock device key endpoint options s inbox Hkey Hnonempty.
  rewrite makeRequest_run, Hkey, (nonempty_key_not_falsy key Hnonempty).
  eexists. split.
  - destruct inbox as [ | [cause | response] inbox]; reflexivity.
  - cbn [url method body headers]. repeat split.
    + rewrite getProp_spread.
      destruct (getProp (rev (ApiService.opt_headers options)) "X-API-Key"); reflexivity.
    + rewrite getProp_spread.
      destruct (getProp (rev (ApiService.opt_headers options)) "Content-Type"); reflexivity.
Qed.

Lemma makeRequest_headers_witness :
  SecureStorage.getApiKey (fun _ => SecureStorage.StoreHolds (Some "k3y")) = Some "k3y" /\
  "k3y" <> "" /\
  exists request,
    sent (run sampleClock
            (ApiService.makeRequest (fun _ => SecureStorage.StoreHolds (Some "k3y"))
               "/api/v1/mobile/stats"
               (ApiService.mkOptions None [("X-API-Key", "other")] None))
            heldFeed [] 0) = [request] /\
    getProp (headers request) "X-API-Key" = Some "other".
Proof.
  assert (Hne : "k3y" <> "") by discriminate.
  split; [reflexivity | split; [exact Hne | ]].
  destruct (makeRequest_headers sampleClock (fun _ => SecureStorage.StoreHolds (Some "k3y"))
              "k3y" "/api/v1/mobile/stats"
              (ApiService.mkOptions None [("X-API-Key", "other")] None)
              heldFeed [] eq_refl Hne)
    as (request & Hsent & _ & _ & _ & Hkey & _).
  exists request. split; [exact Hsent | exact Hkey].
Defined.

(** X14: the service calls and the screen hit the same endpoints.  With
    the configured API key in the store, [getMobileFeed(limit, offset)]
    sends exactly the request [loadPosts] sends for that limit and
    offset, its defaults give the request of the screen's first load, and
    [updatePostFeedback] sends exactly the PUT of a feedback tap with the
    same fields. *)
Theorem service_sends_the_requests_of_the_screen :
  forall clock device s inbox limit offset postId fields,
    SecureStorage.getApiKey device = Some API_CONFIG.API_KEY ->
    sent (run clock (ApiService.getMobileFeed device (Some limit) (Some offset)) s inbox 0)
      = [feedRequest limit offset] /\
    sent (run clock (ApiService.getMobileFeed device None None) s inbox 0)
      = sent (react clock firstRender Mount []) /\
    sent (run clock (ApiService.updatePostFeedback device postId fields) s inbox 0)
      = [feedbackRequest postId fields].
Proof.
  intros clock device s inbox limit offset postId fields Hkey.
  unfold ApiService.getMobileFeed, ApiService.updatePostFeedback.
  rewrite !service_run, Hkey. rewrite react_Mount, loadPosts_pending.
  destruct inbox as [ | [cause | response] inbox]; repeat split.
Qed.

Lemma service_sends_witness :
  SecureStorage.getApiKey (fun _ => SecureStorage.StoreHolds (Some API_CONFIG.API_KEY))
    = Some API_CONFIG.API_KEY /\
  sent (run sampleClock
          (ApiService.getMobileFeed
             (fun _ => SecureStorage.StoreHolds (Some API_CONFIG.API_KEY)) (Some 20) (Some 40))
          heldFeed [] 0)
    = [feedRequest 20 40].
Proof.
  split; [reflexivity | ].
  exact (proj1 (service_sends_the_requests_of_the_screen sampleClock
                  (fun _ => SecureStorage.StoreHolds (Some API_CONFIG.API_KEY))
                  heldFeed [] 20 40 1 [] eq_refl)).
Defined.

(** X15: what the three service calls give back.  With a key stored and
    a response at hand, each of [getMobileFeed], [updatePostFeedback] and
    [getMobileStats] returns the parsed body of a 2xx response ([null]
    included) and rejects with a SyntaxError when that body is not JSON;
    on a 401 it rejects with the invalid-key error and on any other
    status outside 200-299 with the HTTP error carrying the status. *)
Theorem service_calls_return_the_parsed_body :
  forall clock device limit offset postId fields call s response inbox,
    In call [ApiService.getMobileFeed device limit offset;
             ApiService.updatePostFeedback device postId fields;
             ApiService.getMobileStats device] ->
    SecureStorage.hasApiKey device = true ->
    settled (run clock call s (Responds response :: inbox) 0)
    = if status response =? 401
      then Rejected (Error "Invalid API key. Please reconfigure the app.")
      else if negb (ok response)
      then Rejected (Error ("HTTP error! status: " ++ showNat (status response))%string)
      else match payload response with
           | NotJson => Rejected SyntaxError
           | parsed => Fulfilled parsed
           end.
Proof.
  intros clock device limit offset postId fields call s response inbox Hcall Hhas.
  rewrite hasApiKey_falsy in Hhas. apply negb_true_iff in Hhas.
  destruct Hcall as [<- | [<- | [<- | []]]];
    unfold ApiService.getMobileFeed, ApiService.updatePostFeedback, ApiService.getMobileStats;
    rewrite service_run, Hhas; reflexivity.
Qed.

Lemma service_calls_witness :
  In (ApiService.getMobileStats (fun _ => SecureStorage.StoreHolds (Some "k3y")))
     [ApiService.getMobileFeed (fun _ => SecureStorage.StoreHolds (Some "k3y")) None None;
      ApiService.updatePostFeedback (fun _ => SecureStorage.StoreHolds (Some "k3y")) 7 [];
      ApiService.getMobileStats (fun _ => SecureStorage.StoreHolds (Some "k3y"))] /\
  SecureStorage.hasApiKey (fun _ => SecureStorage.StoreHolds (Some "k3y")) = true /\
  settled (run sampleClock
             (ApiService.getMobileStats (fun _ => SecureStorage.StoreHolds (Some "k3y")))
             heldFeed [Responds (mkResponse 200 NotJson)] 0)
    = Rejected SyntaxError.
Proof.
  assert (Hin : In (ApiService.getMobileStats (fun _ => SecureStorage.StoreHolds (Some "k3y")))
     [ApiService.getMobileFeed (fun _ => SecureStorage.StoreHolds (Some "k3y")) None None;
      ApiService.updatePostFeedback (fun _ => SecureStorage.StoreHolds (Some "k3y")) 7 [];
      ApiService.getMobileStats (fun _ => SecureStorage.StoreHolds (Some "k3y"))])
    by (right; right; left; reflexivity).
  split; [exact Hin | split; [reflexivity | ]].
  exact (service_calls_return_the_parsed_body sampleClock
           (fun _ => SecureStorage.StoreHolds (Some "k3y")) None None 7 []
           _ heldFeed (mkResponse 200 NotJson) [] Hin eq_refl).
Defined.

(** X16: storing then using the key.  On a keychain that returns what was
    last written, after [storeApiKey] answers true [getApiKey] returns
    that key, [hasApiKey] answers whether it is non-empty, and a request
    made with no headers of the caller's carries it as X-API-Key; an
    empty key that was stored counts as no key. *)
Theorem stored_key_is_used :
  forall (K : Type) (lib : SecureStorage.SecureStoreLib K) apiKey keychain keychain',
    keepsWrites lib ->
    SecureStorage.storeApiKey lib apiKey keychain = (true, keychain') ->
    SecureStorage.getApiKey (SecureStorage.onDevice lib keychain') = Some apiKey /\
    SecureStorage.hasApiKey (SecureStorage.onDevice lib keychain')
      = (0 <? String.length apiKey) /\
    forall clock endpoint s inbox,
      sent (run clock (ApiService.makeRequest (SecureStorage.onDevice lib keychain') endpoint
                         ApiService.noOptions) s inbox 0)
      = if 0 <? String.length apiKey
        then [mkRequest (API_CONFIG.BASE_URL ++ endpoint)%string GET
                        [("Content-Type", "application/json"); ("X-API-Key", apiKey)] None]
        else [].
Proof.
  intros K lib apiKey keychain keychain' Hkeeps Hstore.
  unfold SecureStorage.storeApiKey in Hstore.
  destruct (SecureStorage.setItemAsync lib SecureStorage.API_KEY_STORAGE_KEY apiKey keychain)
    as [[error | ] after] eqn:Hset; [discriminate | ].
  injection Hstore as <-.
  assert (Hget : SecureStorage.getApiKey (SecureStorage.onDevice lib after) = Some apiKey).
  { unfold SecureStorage.getApiKey, SecureStorage.onDevice.
    rewrite (Hkeeps _ _ _ _ Hset). reflexivity. }
  split; [exact Hget | split].
  - unfold SecureStorage.hasApiKey. rewrite Hget. reflexivity.
  - intros clock endpoint s inbox. rewrite makeRequest_run, Hget. cbn.
    destruct (String.length apiKey); cbn; [reflexivity | ].
    destruct inbox as [ | [cause | response] inbox]; reflexivity.
Qed.

Lemma stored_key_witness :
  keepsWrites listKeychain /\
  SecureStorage.storeApiKey listKeychain "k3y" [] =
    (true, [(SecureStorage.API_KEY_STORAGE_KEY, "k3y")]) /\
  SecureStorage.getApiKey
    (SecureStorage.onDevice listKeychain [(SecureStorage.API_KEY_STORAGE_KEY, "k3y")])
    = Some "k3y".
Proof.
  assert (Hkeeps : keepsWrites listKeychain).
  { intros key value keychain keychain' H. cbn in *. injection H as <-.
    cbn. rewrite String.eqb_refl. reflexivity. }
  split; [exact Hkeeps | split; [reflexivity | ]].
  exact (proj1 (stored_key_is_used _ listKeychain "k3y" [] _ Hkeeps eq_refl)).
Defined.

(** X17: removing the key.  On a keychain that holds nothing under a key
    it deleted, after [removeApiKey] answers true [hasApiKey] answers
    false and every request is refused with the missing-key error before
    anything is sent. *)
Theorem removed_key_blocks_requests :
  forall (K : Type) (lib : SecureStorage.SecureStoreLib K) keychain keychain',
    forgetsDeleted lib ->
    SecureStorage.removeApiKey lib keychain = (true, keychain') ->
    SecureStorage.hasApiKey (SecureStorage.onDevice lib keychain') = false /\
    forall clock endpoint options s inbox,
      run clock (ApiService.makeRequest (SecureStorage.onDevice lib keychain') endpoint options)
          s inbox 0
      = mkRun (Rejected (Error "API key not found. Please configure the app.")) s [].
Proof.
  intros K lib keychain keychain' Hforgets Hremove.
  unfold SecureStorage.removeApiKey in Hremove.
  destruct (SecureStorage.deleteItemAsync lib SecureStorage.API_KEY_STORAGE_KEY keychain)
    as [[error | ] after] eqn:Hdel; [discriminate | ].
  injection Hremove as <-.
  assert (Hget : SecureStorage.getApiKey (SecureStorage.onDevice lib after) = None).
  { unfold SecureStorage.getApiKey, SecureStorage.onDevice.
    rewrite (Hforgets _ _ _ Hdel). reflexivity. }
  split.
  - unfold SecureStorage.hasApiKey. rewrite Hget. reflexivity.
  - intros clock endpoint options s inbox. rewrite makeRequest_run, Hget. reflexivity.
Qed.

Lemma getProp_filter_out key keychain :
  getProp (filter (fun kv : string * string => negb (String.eqb (fst kv) key)) keychain) key
  = None.
Proof.
  induction keychain as [ | [k v] rest IH]; cbn; [reflexivity | ].
  destruct (String.eqb k key) eqn:Hk; cbn; [exact IH | ].
  rewrite Hk. exact IH.
Qed.

Lemma removed_key_witness :
  forgetsDeleted listKeychain /\
  SecureStorage.removeApiKey listKeychain [(SecureStorage.API_KEY_STORAGE_KEY, "k3y")]
    = (true, []) /\
  SecureStorage.hasApiKey (SecureStorage.onDevice listKeychain []) = false.
Proof.
  assert (Hforgets : forgetsDeleted listKeychain).
  { intros key keychain keychain' H. cbn in *. injection H as <-.
    rewrite getProp_filter_out. reflexivity. }
  split; [exact Hforgets | split; [reflexivity | ]].
  exact (proj1 (removed_key_blocks_requests _ listKeychain
                  [(SecureStorage.API_KEY_STORAGE_KEY, "k3y")] [] Hforgets eq_refl)).
Defined.

(** ** What the user sees *)

(** X18: what is rendered around a reset load that nothing else
    interrupts.  Right after a first load or a pull-to-refresh has
    started, before anything else is handled, the component returns the
    loading screen, the list of held posts being unmounted; when the
    load runs from its start to its reply with nothing handled in
    between, the component then returns the feed with the held posts, no
    pending indicators, and the header and banner say whether a page
    came: [Live from API] and no banner after a page, [Offline mode] and
    the error banner otherwise. *)
Theorem render_around_an_uninterrupted_reset_load :
  forall clock s e,
    e = Mount \/ e = PullToRefresh ->
    render (hooks (react clock s e [])) = LoadingView "Loading educational content..." /\
    forall reply inbox,
      render (hooks (react clock s e (reply :: inbox)))
      = FeedView
          "🎓 Educational Feed"
          (showNat (List.length (posts (hooks (react clock s e (reply :: inbox)))))
             ++ " posts • "
             ++ match pageOf reply with
                | Some _ => "Live from API"
                | None => "Offline mode"
                end)%string
          (match pageOf reply with
           | Some _ => None
           | None =>
               Some ("⚠️ " ++ (if lacksPosts reply
                               then "No posts received from API"
                               else "Failed to load posts from API"))%string
           end)
          (posts (hooks (react clock s e (reply :: inbox))))
          false
          None.
Proof.
  intros clock s e He.
  split.
  - destruct He as [-> | ->];
      [rewrite react_Mount | rewrite react_PullToRefresh];
      rewrite loadPosts_pending; reflexivity.
  - intros reply inbox.
    assert (Hhooks : exists view state,
               hooks (react clock s e (reply :: inbox))
               = hooks (run clock (loadPosts view true) state (reply :: inbox) 0)).
    { destruct He as [-> | ->]; [exists s, s | exists firstRender, (setRefreshing true s)];
        reflexivity. }
    destruct Hhooks as (view & state & ->).
    destruct (reply_cases reply) as [(page & hm & Hp) | [Hn | Ht]].
    + rewrite (loadPosts_page _ _ _ _ _ _ _ _ _ Hp), Hp. reflexivity.
    + rewrite (loadPosts_nodata _ _ _ _ _ _ _ Hn), Hn.
      assert (Hnone : pageOf reply = None).
      { destruct reply as [cause | response]; [reflexivity | ]. cbn in *.
        destruct (ok response); [ | reflexivity].
        destruct (payload response) as [ | | [page | ] hm]; try reflexivity; discriminate. }
      rewrite Hnone. reflexivity.
    + rewrite (loadPosts_throws _ _ _ _ _ _ _ Ht).
      assert (Hnone : pageOf reply = None /\ lacksPosts reply = false).
      { destruct reply as [cause | response]; [split; reflexivity | ]. cbn in *.
        destruct (ok response); [ | split; reflexivity].
        destruct (payload response) as [ | | [page | ] hm];
          try (split; reflexivity); discriminate. }
      destruct Hnone as [-> ->]. reflexivity.
Qed.

Lemma render_uninterrupted_reset_load_witness :
  (PullToRefresh = Mount \/ PullToRefresh = PullToRefresh) /\
  render (hooks (react sampleClock heldFeed PullToRefresh []))
    = LoadingView "Loading educational content...".
Proof.
  split; [right; reflexivity | ].
  exact (proj1 (render_around_an_uninterrupted_reset_load sampleClock heldFeed PullToRefresh
                  (or_intror eq_refl))).
Defined.

(** X19: right after an end-of-list trigger has started an append,
    before anything else is handled, the feed stays on screen: the
    component returns the held posts with the footer loader, no error
    banner and the header [Live from API], and the refresh indicator as
    it was. *)
Theorem render_right_after_an_append_starts :
  forall clock s,
    negb (loadingMore s) && hasMore s && negb (loading s) = true ->
    render (hooks (react clock s EndReached []))
    = FeedView "🎓 Educational Feed"
               (showNat (List.length (posts s)) ++ " posts • Live from API")%string
               None (posts s) (refreshing s) (Some "Loading more posts...").
Proof.
  intros clock s Hguard. rewrite react_EndReached, Hguard, loadPosts_pending.
  apply andb_prop in Hguard as [_ Hloading]. apply negb_true_iff in Hloading.
  unfold render. cbn. rewrite Hloading. reflexivity.
Qed.

Lemma render_after_append_starts_witness :
  negb (loadingMore heldFeed) && hasMore heldFeed && negb (loading heldFeed) = true /\
  render (hooks (react sampleClock heldFeed EndReached []))
    = FeedView "🎓 Educational Feed" "2 posts • Live from API" None (posts heldFeed) false
               (Some "Loading more posts...").
Proof.
  split; [reflexivity | ].
  exact (render_right_after_an_append_starts sampleClock heldFeed eq_refl).
Defined.

Lemma showZ_injective a b : showZ a = showZ b -> a = b.
Proof.
  unfold showZ. intros H.
  apply (f_equal NilEmpty.int_of_string) in H. rewrite !NilEmpty.isi in H.
  injection H as H. apply (f_equal Z.of_int) in H. rewrite !DecimalZ.of_to in H. exact H.
Qed.

(** X20: the keys the list gives its rows ([post_id.toString()]) are
    pairwise distinct exactly when the held posts have pairwise distinct
    identities: two rows share a key only if the feed holds an identity
    twice. *)
Theorem list_keys_distinct_iff_ids_distinct :
  forall held : list Post,
    NoDup (map keyExtractor held) <-> NoDup (ids held).
Proof.
  intros held.
  assert (Hmap : map keyExtractor held = map showZ (ids held))
    by (unfold ids, keyExtractor; rewrite map_map; reflexivity).
  rewrite Hmap. split.
  - apply NoDup_map_inv.
  - apply Injective_map_NoDup. intros a b. apply showZ_injective.
Qed.
